(** * Navigator sessions: SessionData, AbstractStorage and the session middleware

    Shallow embedding of [navigator/auth/sessions/storages/abstract.py].

    - Python values are a small tagged union ([pyval]) with Python's
      truthiness; exceptions are values of [Exn] carried by [result].
    - A [dict] is an insertion-ordered association list (Python dicts keep
      insertion order, and [__iter__] exposes it).
    - The request context is any type implementing [MutableMapping]; the
      instance for aiohttp's request is a [gmap] from slot names to slots.
    - [uuid.uuid4().hex] and [int(time.time())] are read from a [World].
    - The awaited calls of the middleware are sequenced in a trace monad. *)

From Stdlib Require Import ZArith Lia List Bool.
From stdpp Require Import base strings pretty gmap.
Import ListNotations.

Local Open Scope string_scope.
Local Open Scope list_scope.
Local Open Scope Z_scope.

(** ** Python values and exceptions *)

Module Py.

(** The fragment of [Any] the session code can tell apart. *)
Inductive pyval : Type :=
| PNone
| PBool (b : bool)
| PInt (z : Z)
| PStr (s : string).

#[global] Instance pyval_eq_dec : EqDecision pyval.
Proof. solve_decision. Defined.

(** [bool(v)] *)
Definition truthy (v : pyval) : bool :=
  match v with
  | PNone => false
  | PBool b => b
  | PInt z => negb (z =? 0)
  | PStr s => negb (String.eqb s "")
  end.

(** [v is None] *)
Definition is_none (v : pyval) : bool :=
  match v with PNone => true | _ => false end.

Inductive Exn : Type :=
| KeyError (key : string)
| TypeError (msg : string)
| RuntimeError (msg : string)
| HTTPException (status : Z)
| CancelledError
| OtherError (msg : string).

(** [isinstance(e, Exception)]: [CancelledError] derives from
    [BaseException] only. *)
Definition is_Exception (e : Exn) : bool :=
  match e with CancelledError => false | _ => true end.

(** [isinstance(e, web.HTTPException)] *)
Definition is_HTTPException (e : Exn) : bool :=
  match e with HTTPException _ => true | _ => false end.

Inductive result (A : Type) : Type :=
| Ok (a : A)
| Raise (e : Exn).
Arguments Ok {A} a.
Arguments Raise {A} e.

Definition bind {A B} (r : result A) (k : A -> result B) : result B :=
  match r with
  | Ok a => k a
  | Raise e => Raise e
  end.

Definition raises {A} (r : result A) : bool :=
  match r with Ok _ => false | Raise _ => true end.

(** [now - v] for an [int] [now]; [bool] is a subclass of [int]. *)
Definition int_sub (now : Z) (v : pyval) : result Z :=
  match v with
  | PInt z => Ok (now - z)
  | PBool b => Ok (now - (if b then 1 else 0))
  | PNone => Raise (TypeError "unsupported operand type(s) for -: 'int' and 'NoneType'")
  | PStr _ => Raise (TypeError "unsupported operand type(s) for -: 'int' and 'str'")
  end.

(** [str(v)] *)
Definition str (v : pyval) : string :=
  match v with
  | PNone => "None"
  | PBool true => "True"
  | PBool false => "False"
  | PInt z => pretty z
  | PStr s => s
  end.

End Py.
Import Py.

Notation "x <- r ;;; k" := (Py.bind r (fun x => k))
  (at level 100, r at next level, right associativity, only parsing).

(** ** Insertion-ordered dictionaries *)

Module Dict.

Definition dict : Type := list (string * pyval).

(** [d.get(k)], [None] when the key is absent *)
Fixpoint get (k : string) (d : dict) : option pyval :=
  match d with
  | [] => None
  | (k', v) :: d' => if String.eqb k k' then Some v else get k d'
  end.

(** [d.get(k, default)] *)
Definition get_default (k : string) (default : pyval) (d : dict) : pyval :=
  match get k d with Some v => v | None => default end.

(** [k in d] *)
Definition contains (k : string) (d : dict) : bool :=
  match get k d with Some _ => true | None => false end.

(** [d[k]] *)
Definition getitem (k : string) (d : dict) : result pyval :=
  match get k d with Some v => Ok v | None => Raise (KeyError k) end.

(** [d[k] = v]: an existing key keeps its position, a new one goes last *)
Fixpoint setitem (k : string) (v : pyval) (d : dict) : dict :=
  match d with
  | [] => [(k, v)]
  | (k', v') :: d' =>
      if String.eqb k k' then (k', v) :: d' else (k', v') :: setitem k v d'
  end.

Fixpoint remove (k : string) (d : dict) : dict :=
  match d with
  | [] => []
  | (k', v') :: d' =>
      if String.eqb k k' then remove k d' else (k', v') :: remove k d'
  end.

(** [del d[k]] *)
Definition delitem (k : string) (d : dict) : result dict :=
  if contains k d then Ok (remove k d) else Raise (KeyError k).

(** [d.update(src)] *)
Definition update (d src : dict) : dict :=
  fold_left (fun acc kv => setitem (fst kv) (snd kv) acc) src d.

(** [list(iter(d))] *)
Definition keys (d : dict) : list string := map fst d.

(** [len(d)] *)
Definition len (d : dict) : Z := Z.of_nat (length d).

(** [bool(d)] *)
Definition truthy (d : dict) : bool :=
  match d with [] => false | _ :: _ => true end.

End Dict.
Abbreviation dict := Dict.dict.

(** ** Configuration and the outside world *)

(** The constants imported from [navigator.conf]; their values are
    deployment settings. *)
Record Conf : Type := {
  SESSION_NAME : string;
  SESSION_PREFIX : string;
  SESSION_TIMEOUT : Z;
  SESSION_KEY : string;
  SESSION_OBJECT : string;
  SESSION_STORAGE : string
}.

(** What [uuid.uuid4().hex] and [int(time.time())] answer during a call. *)
Record World : Type := {
  uuid4_hex : string;
  time_now : Z
}.

(** The backend handle [db]; the session code only stores it. *)
Inductive Callable : Type := Handle (name : string).

(** ** class SessionData *)

Module SessionData.

Record t : Type := {
  _changed : bool;
  _data : dict;
  _db : Callable;
  _identity : pyval;
  _new : bool;
  _max_age : option Z;
  _created : pyval
}.

(** [bool(data)] for [data : Optional[Mapping]] *)
Definition data_truthy (data : option dict) : bool :=
  match data with Some d => Dict.truthy d | None => false end.

(** [data != {}]: [None] differs from the empty dict. *)
Definition data_ne_empty (data : option dict) : bool :=
  match data with Some [] => false | _ => true end.

(** [data.get(key, None)], used only under [if data] *)
Definition data_get (key : string) (data : option dict) : pyval :=
  match data with Some d => Dict.get_default key PNone d | None => PNone end.

Section Init.
Context (conf : Conf).

Definition __init__ (w : World) (db : Callable) (data : option dict)
    (new : bool) (identity : pyval) (max_age : option Z) : result t :=
  let identity0 :=
    if data_truthy data then data_get (SESSION_KEY conf) data else identity in
  let identity1 :=
    if negb (truthy identity0) then PStr (uuid4_hex w) else identity0 in
  let new1 := if data_ne_empty data then new else true in
  let max_age1 :=
    match max_age with
    | Some m => if negb (m =? 0) then Some m else None
    | None => None
    end in
  let created := if data_truthy data then data_get "created" data else PNone in
  let now := time_now w in
  age <- (if truthy created then int_sub now created else Ok now) ;;;
  (* [if max_age is not None and age > max_age: session_data = None]
     binds a local name and nothing else *)
  let session_data :=
    match max_age with
    | Some m => if age >? m then Some PNone else None
    | None => None
    end in
  let created1 :=
    if new1 || is_none created then PInt now else created in
  let data1 :=
    match data with
    | Some d => Dict.update [] d
    | None => []
    end in
  Ok {| _changed := false; _data := data1; _db := db;
        _identity := identity1; _new := new1; _max_age := max_age1;
        _created := created1 |}.

End Init.

(** Properties *)
Definition new (s : t) : bool := _new s.
Definition identity (s : t) : pyval := _identity s.
Definition created (s : t) : pyval := _created s.
Definition empty (s : t) : bool := negb (Dict.truthy (_data s)).
Definition max_age (s : t) : option Z := _max_age s.
Definition is_changed (s : t) : bool := _changed s.

Definition with_data (d : dict) (s : t) : t :=
  {| _changed := _changed s; _data := d; _db := _db s;
     _identity := _identity s; _new := _new s; _max_age := _max_age s;
     _created := _created s |}.

Definition with_changed (b : bool) (s : t) : t :=
  {| _changed := b; _data := _data s; _db := _db s;
     _identity := _identity s; _new := _new s; _max_age := _max_age s;
     _created := _created s |}.

(** [max_age.setter] *)
Definition set_max_age (value : option Z) (s : t) : t :=
  {| _changed := _changed s; _data := _data s; _db := _db s;
     _identity := _identity s; _new := _new s; _max_age := value;
     _created := _created s |}.

Definition changed (s : t) : t := with_changed true s.

Definition session_data (s : t) : dict := _data s.

Definition invalidate (s : t) : t := with_data [] (with_changed true s).

Definition __len__ (s : t) : Z := Dict.len (_data s).

Definition __iter__ (s : t) : list string := Dict.keys (_data s).

Definition __contains__ (key : string) (s : t) : bool :=
  Dict.contains key (_data s).

Definition __getitem__ (key : string) (s : t) : result pyval :=
  Dict.getitem key (_data s).

Definition __setitem__ (key : string) (value : pyval) (s : t) : t :=
  with_changed true (with_data (Dict.setitem key value (_data s)) s).

(** A failing [del self._data[key]] leaves before [_changed] is set. *)
Definition __delitem__ (key : string) (s : t) : result t :=
  d <- Dict.delitem key (_data s) ;;;
  Ok (with_changed true (with_data d s)).

Definition __getattr__ (key : string) (s : t) : result pyval :=
  Dict.getitem key (_data s).

(** The operations a handler performs on a session, and what they
    answer. *)
Inductive op : Type :=
| Get (key : string)
| Set_ (key : string) (value : pyval)
| Delete (key : string)
| ContainsKey (key : string)
| Length
| Iterate
| Invalidate
| IsEmpty.

Inductive answer : Type :=
| AValue (v : pyval)
| ABool (b : bool)
| AInt (n : Z)
| AKeys (ks : list string)
| ANothing.

(** One operation: its outcome and the object afterwards.  An operation
    that raises leaves the object as the failing statement found it. *)
Definition exec (o : op) (s : t) : result answer * t :=
  match o with
  | Get k =>
      match __getitem__ k s with
      | Ok v => (Ok (AValue v), s)
      | Raise e => (Raise e, s)
      end
  | Set_ k v => (Ok ANothing, __setitem__ k v s)
  | Delete k =>
      match __delitem__ k s with
      | Ok s' => (Ok ANothing, s')
      | Raise e => (Raise e, s)
      end
  | ContainsKey k => (Ok (ABool (__contains__ k s)), s)
  | Length => (Ok (AInt (__len__ s)), s)
  | Iterate => (Ok (AKeys (__iter__ s)), s)
  | Invalidate => (Ok ANothing, invalidate s)
  | IsEmpty => (Ok (ABool (empty s)), s)
  end.

(** A sequence of operations on one object; the caller goes on after
    an operation that raised. *)
Definition run (ops : list op) (s : t) : t :=
  fold_left (fun acc o => snd (exec o acc)) ops s.

(** The identity precedence as the specification words it: the data's
    identity key when the data has one, else the explicit argument when
    one is given, else a generated one. *)
Definition identity_as_specified (conf : Conf) (w : World)
    (data : option dict) (identity : pyval) : pyval :=
  match data with
  | Some d =>
      match Dict.get (SESSION_KEY conf) d with
      | Some v => v
      | None => if is_none identity then PStr (uuid4_hex w) else identity
      end
  | None => if is_none identity then PStr (uuid4_hex w) else identity
  end.

(** The supplied ['created'] can be subtracted from an [int]: it is
    absent, falsy, or a number. *)
Definition created_subtractable (data : option dict) : bool :=
  match data with
  | Some d =>
      match Dict.get "created" d with
      | Some (PStr c) => String.eqb c ""
      | _ => true
      end
  | None => true
  end.

End SessionData.

(** ** The request context, responses and the trace of awaited calls *)

(** What a slot of the request context can hold. *)
Inductive slot : Type :=
| SlotStorage
| SlotSession (s : SessionData.t)
| SlotValue (v : pyval).

(** [isinstance(x, SessionData)] on the answer of [request.get(key)] *)
Definition as_SessionData (x : option slot) : option SessionData.t :=
  match x with Some (SlotSession s) => Some s | _ => None end.

(** The mapping protocol the code uses on [request]: [request.get(key)],
    [request[key] = value] and [del request[key]].  Assignment stores
    into the request's own dict and always succeeds; deletion may raise. *)
Class MutableMapping (R : Type) : Type := {
  mm_get : string -> R -> option slot;
  mm_setitem : string -> slot -> R -> R;
  mm_delitem : string -> R -> result R
}.

(** aiohttp's request keeps its slots in a dict. *)
Abbreviation Request := (gmap string slot).

#[global] Instance Request_mapping : MutableMapping Request := {|
  mm_get k r := r !! k;
  mm_setitem k v r := <[k := v]> r;
  mm_delitem k r :=
    match r !! k with
    | Some _ => Ok (delete k r)
    | None => Raise (KeyError k)
    end
|}.

(** A request whose slots cannot be deleted: every [del] raises. *)
Record LockedRequest : Type := { locked_slots : gmap string slot }.

#[global] Instance LockedRequest_mapping : MutableMapping LockedRequest := {|
  mm_get k r := locked_slots r !! k;
  mm_setitem k v r := {| locked_slots := <[k := v]> (locked_slots r) |};
  mm_delitem k r := Raise (RuntimeError "slots are locked")
|}.

Record Response : Type := {
  status : Z;
  prepared : bool;
  cookies : list (string * string)
}.

(** What a handler can hand back: an instance of [web.StreamResponse]
    (or of [web.HTTPException], a response class too), or anything else. *)
Inductive HandlerValue : Type :=
| StreamResponse (r : Response)
| NotAResponse (v : pyval).

Inductive event : Type :=
| EvSetItem (key : string)
| EvGet (key : string)
| EvDelItem (key : string)
| EvCallHandler
| EvHandlerReturned (v : HandlerValue)
| EvHandlerRaised (e : Exn)
| EvGetSession
| EvInvalidate (s : SessionData.t)
| EvSaveSession (response : Response) (s : SessionData.t)
| EvPrint (e : Exn)
| EvReturn (v : HandlerValue)
| EvRaise (e : Exn).

Definition is_save (ev : event) : bool :=
  match ev with EvSaveSession _ _ => true | _ => false end.

Definition is_session_read (conf : Conf) (ev : event) : bool :=
  match ev with
  | EvGet k => String.eqb k (SESSION_OBJECT conf)
  | EvGetSession => true
  | _ => false
  end.

(** Number of [save_session] calls in a trace. *)
Definition count_saves (tr : list event) : nat := length (filter is_save tr).

(** [a] occurs in [tr] strictly before [b]. *)
Definition precedes (a b : event) (tr : list event) : Prop :=
  exists l1 l2 l3, tr = l1 ++ a :: l2 ++ b :: l3.

(** Computations over the request context that log what they call and
    may raise. *)
Module Aio.
Section WithRequest.
Context {R : Type} `{MutableMapping R}.

Definition M (A : Type) : Type :=
  R -> list event -> result A * R * list event.

Definition ret {A} (a : A) : M A := fun r tr => (Ok a, r, tr).

Definition raise {A} (e : Exn) : M A := fun r tr => (Raise e, r, tr).

Definition bind {A B} (m : M A) (k : A -> M B) : M B :=
  fun r tr =>
    match m r tr with
    | (Ok a, r', tr') => k a r' tr'
    | (Raise e, r', tr') => (Raise e, r', tr')
    end.

Definition emit (ev : event) : M unit := fun r tr => (Ok tt, r, tr ++ [ev]).

(** [await f(request)], logged as [ev] *)
Definition await {A} (ev : event) (f : R -> result A * R) : M A :=
  bind (emit ev) (fun _ r tr => let '(a, r') := f r in (a, r', tr)).

(** [try: m except <class> as err: handler(err)] *)
Definition try_except {A} (m : M A) (catches : Exn -> bool)
    (handler : Exn -> M A) : M A :=
  fun r tr =>
    match m r tr with
    | (Ok a, r', tr') => (Ok a, r', tr')
    | (Raise e, r', tr') =>
        if catches e then handler e r' tr' else (Raise e, r', tr')
    end.

(** [try: m finally: return v]: the [return] discards whatever [m]
    returned or raised. *)
Definition finally_return {A B} (m : M A) (v : B) : M B :=
  fun r tr => let '(_, r', tr') := m r tr in (Ok v, r', tr').

(** [request[key] = value] *)
Definition request_setitem (key : string) (value : slot) : M unit :=
  bind (emit (EvSetItem key))
       (fun _ r tr => (Ok tt, mm_setitem key value r, tr)).

(** [request.get(key)] *)
Definition request_get (key : string) : M (option slot) :=
  bind (emit (EvGet key)) (fun _ r tr => (Ok (mm_get key r), r, tr)).

(** [del request[key]] *)
Definition request_delitem (key : string) : M unit :=
  bind (emit (EvDelItem key))
       (fun _ r tr =>
          match mm_delitem key r with
          | Ok r' => (Ok tt, r', tr)
          | Raise e => (Raise e, r, tr)
          end).

(** [print('Error: ', err)] *)
Definition print (err : Exn) : M unit := emit (EvPrint err).

(** The whole run from an empty log, closed by how it ended. *)
Definition observe (m : M HandlerValue) (r : R) : list event :=
  let '(out, _, tr) := m r [] in
  tr ++ [match out with Ok v => EvReturn v | Raise e => EvRaise e end].

End WithRequest.
End Aio.

Notation "x <- m ;; k" := (Aio.bind m (fun x => k))
  (at level 100, m at next level, right associativity, only parsing).
Notation "m ;; k" := (Aio.bind m (fun _ => k))
  (at level 100, right associativity, only parsing).

(** ** class AbstractStorage *)

Module AbstractStorage.

(** The abstract methods a concrete storage supplies.  Each may change
    the request context and may raise; [save_session] answers the
    response as it left it. *)
Class Backend (R : Type) : Type := {
  new_session : option dict -> R -> result SessionData.t * R;
  load_session : bool -> R -> result SessionData.t * R;
  get_session : R -> result SessionData.t * R;
  save_session : Response -> SessionData.t -> R -> result Response * R;
  invalidate : SessionData.t -> R -> result unit * R
}.

Record t : Type := { max_age : Z }.

Section Storage.
Context (conf : Conf).

Definition id_factory (w : World) : string := uuid4_hex w.

Definition __init__ (max_age : option Z) (secure : option bool) : t :=
  match max_age with
  | Some m =>
      if m =? 0 then {| max_age := SESSION_TIMEOUT conf |}
      else {| max_age := m |}
  | None => {| max_age := SESSION_TIMEOUT conf |}
  end.

Context {R : Type} `{MutableMapping R} `{Backend R}.

Definition forgot (self : t) : Aio.M bool :=
  session <- Aio.await EvGetSession get_session ;;
  (Aio.await (EvInvalidate session) (invalidate session) ;;
  (Aio.request_setitem "session" (SlotValue PNone) ;;
  Aio.finally_return
    (Aio.try_except
       (Aio.request_delitem (SESSION_KEY conf) ;;
        Aio.request_delitem (SESSION_OBJECT conf))
       is_Exception
       (fun err => Aio.print err))
    true)).

End Storage.
End AbstractStorage.

(** ** session_middleware *)

Section Middleware.
Context (conf : Conf) {R : Type} `{MutableMapping R}
        `{AbstractStorage.Backend R}.

Definition Handler : Type := R -> result HandlerValue * R.

(** [await handler(request)] *)
Definition await_handler (handler : Handler) : Aio.M HandlerValue :=
  fun r tr =>
    match handler r with
    | (Ok v, r') => (Ok v, r', tr ++ [EvCallHandler; EvHandlerReturned v])
    | (Raise e, r') => (Raise e, r', tr ++ [EvCallHandler; EvHandlerRaised e])
    end.

Definition middleware (storage : AbstractStorage.t) (handler : Handler)
    : Aio.M HandlerValue :=
  Aio.request_setitem (SESSION_STORAGE conf) SlotStorage ;;
  (response <-
     Aio.try_except (await_handler handler) is_HTTPException
       (fun exc => Aio.raise exc) ;;
   match response with
   | NotAResponse _ =>
       (* likely got websocket or streaming *)
       Aio.ret response
   | StreamResponse resp =>
       if prepared resp then
         Aio.raise
           (RuntimeError "We Cannot save session data into on prepared responses")
       else
         session <- Aio.request_get (SESSION_OBJECT conf) ;;
         match as_SessionData session with
         | Some s =>
             if SessionData.is_changed s then
               resp' <- Aio.await (EvSaveSession resp s)
                          (AbstractStorage.save_session resp s) ;;
               Aio.ret (StreamResponse resp')
             else Aio.ret response
         | None => Aio.ret response
         end
   end).

(** What can be passed as [storage] to the factory. *)
Inductive object : Type :=
| Storage (st : AbstractStorage.t)
| NotStorage (v : pyval).

Definition session_middleware (app : unit) (storage : object)
    : result (Handler -> Aio.M HandlerValue) :=
  match storage with
  | Storage st => Ok (middleware st)
  | NotStorage v =>
      Raise (RuntimeError ("Expected an AbstractStorage got " +:+ Py.str v))
  end.

End Middleware.

(** What the middleware has logged once an unprepared response is back
    and the session slot has been read. *)
Definition log_until_session_read (conf : Conf) (resp : Response)
    : list event :=
  [EvSetItem (SESSION_STORAGE conf); EvCallHandler;
   EvHandlerReturned (StreamResponse resp); EvGet (SESSION_OBJECT conf)].

(** ** Concrete settings used in examples *)

Definition example_conf : Conf := {|
  SESSION_NAME := "AIOHTTP_SESSION";
  SESSION_PREFIX := "navigator_session";
  SESSION_TIMEOUT := 3600;
  SESSION_KEY := "id";
  SESSION_OBJECT := "NAV_SESSION_OBJECT";
  SESSION_STORAGE := "NAV_SESSION_STORAGE"
|}.

Definition example_world : World := {|
  uuid4_hex := "9f1c2a7e4b3d48a6b0c5d2e1f3a4b5c6";
  time_now := 1700000000
|}.

Definition example_db : Callable := Handle "memory".

(** A session as [__init__] leaves it for [data = {'user': 'bob'}]. *)
Definition example_session : SessionData.t := {|
  SessionData._changed := false;
  SessionData._data := [("user", PStr "bob")];
  SessionData._db := example_db;
  SessionData._identity := PStr "abc";
  SessionData._new := false;
  SessionData._max_age := None;
  SessionData._created := PInt 1700000000
|}.

Definition example_response : Response :=
  {| status := 200; prepared := false; cookies := [] |}.

(** A storage backend over a request type: sessions live in the
    [SESSION_OBJECT] slot, saving sets a cookie. *)
Definition slot_backend {R : Type} `{MutableMapping R} (conf : Conf)
    : AbstractStorage.Backend R := {|
  AbstractStorage.new_session data r := (Ok example_session, r);
  AbstractStorage.load_session new r := (Ok example_session, r);
  AbstractStorage.get_session r :=
    match as_SessionData (mm_get (SESSION_OBJECT conf) r) with
    | Some s => (Ok s, r)
    | None => (Ok example_session, r)
    end;
  AbstractStorage.save_session resp s r :=
    (Ok {| status := status resp; prepared := prepared resp;
           cookies := (SESSION_NAME conf, "sid") :: cookies resp |}, r);
  AbstractStorage.invalidate s r := (Ok tt, r)
|}.

(** A handler that stores a value in the session and answers 200. *)
Definition mutating_handler (conf : Conf) : @Handler Request :=
  fun r =>
    (Ok (StreamResponse example_response),
     <[SESSION_OBJECT conf :=
         SlotSession (SessionData.__setitem__ "cart" (PInt 3) example_session)]> r).


Definition example_storage : AbstractStorage.t :=
  AbstractStorage.__init__ example_conf None None.

(** The request context after [mutating_handler] ran under the
    middleware on an empty context. *)
Definition example_request_after : Request :=
  <[SESSION_OBJECT example_conf :=
      SlotSession (SessionData.__setitem__ "cart" (PInt 3) example_session)]>
    (<[SESSION_STORAGE example_conf := SlotStorage]> ∅).

(** A locked request context with an active session. *)
Definition example_locked_request : LockedRequest :=
  {| locked_slots :=
       {[ SESSION_KEY example_conf := SlotValue (PStr "abc");
          SESSION_OBJECT example_conf := SlotSession example_session ]} |}.

(** ** Classes of operations and handlers that use the session *)

(** Operations that only read the session. *)
Definition read_only (o : SessionData.op) : bool :=
  match o with
  | SessionData.Get _ | SessionData.ContainsKey _ | SessionData.Length
  | SessionData.Iterate | SessionData.IsEmpty => true
  | _ => false
  end.

(** Operations that write the session whenever they run. *)
Definition always_writes (o : SessionData.op) : bool :=
  match o with
  | SessionData.Set_ _ _ | SessionData.Invalidate => true
  | _ => false
  end.

(** A handler that performs [ops] on the session attached to the request,
    catching the exception of every operation, and answers [resp]. *)
Definition session_handler (conf : Conf) (ops : list SessionData.op)
    (resp : Response) : @Handler Request :=
  fun r =>
    match as_SessionData (r !! SESSION_OBJECT conf) with
    | Some s =>
        (Ok (StreamResponse resp),
         <[SESSION_OBJECT conf := SlotSession (SessionData.run ops s)]> r)
    | None => (Ok (StreamResponse resp), r)
    end.

(** Operations run in order up to the first one that raises: the
    exception that stopped the run, if any, and the object as it is
    then. *)
Fixpoint run_until_raise (ops : list SessionData.op) (s : SessionData.t)
    : option Exn * SessionData.t :=
  match ops with
  | [] => (None, s)
  | o :: ops' =>
      match SessionData.exec o s with
      | (Ok _, s') => run_until_raise ops' s'
      | (Raise e, s') => (Some e, s')
      end
  end.

(** A handler that performs [ops] on the session attached to the request
    and then answers [resp].  With [catches] it wraps every operation in
    a [try] and goes on; without, the first exception of an operation
    leaves the handler.  The session object is changed in place, so the
    request holds it as the operations left it either way. *)
Definition scripted_handler (conf : Conf) (catches : bool)
    (ops : list SessionData.op) (resp : Response) : @Handler Request :=
  fun r =>
    match as_SessionData (r !! SESSION_OBJECT conf) with
    | Some s =>
        if catches then
          (Ok (StreamResponse resp),
           <[SESSION_OBJECT conf := SlotSession (SessionData.run ops s)]> r)
        else
          match run_until_raise ops s with
          | (None, s') =>
              (Ok (StreamResponse resp),
               <[SESSION_OBJECT conf := SlotSession s']> r)
          | (Some e, s') =>
              (Raise e, <[SESSION_OBJECT conf := SlotSession s']> r)
          end
    | None => (Ok (StreamResponse resp), r)
    end.

Definition is_handler_call (ev : event) : bool :=
  match ev with EvCallHandler => true | _ => false end.

(** Number of handler calls in a trace. *)
Definition count_handler_calls (tr : list event) : nat :=
  length (filter is_handler_call tr).

(** Deletions from the request context in a trace. *)
Definition deleted_keys (tr : list event) : list string :=
  flat_map (fun ev => match ev with EvDelItem k => [k] | _ => [] end) tr.

(** Errors printed in a trace. *)
Definition printed (tr : list event) : list Exn :=
  flat_map (fun ev => match ev with EvPrint e => [e] | _ => [] end) tr.

(** A handler that redirects by raising. *)
Definition redirecting_handler : @Handler Request :=
  fun r => (Raise (HTTPException 302), r).

(** A handler that has already sent its response. *)
Definition streaming_handler : @Handler Request :=
  fun r =>
    (Ok (StreamResponse {| status := 200; prepared := true; cookies := [] |}),
     r).

(** A request context with an unchanged session attached. *)
Definition example_request : Request :=
  {[ SESSION_OBJECT example_conf := SlotSession example_session ]}.

(** A backend whose [invalidate] and [get_session] can be made to fail. *)
Definition failing_backend {R : Type} (get_fails invalidate_fails : bool)
    : AbstractStorage.Backend R := {|
  AbstractStorage.new_session data r := (Ok example_session, r);
  AbstractStorage.load_session new r := (Ok example_session, r);
  AbstractStorage.get_session r :=
    if get_fails then (Raise (OtherError "backend down"), r)
    else (Ok example_session, r);
  AbstractStorage.save_session resp s r := (Raise (OtherError "backend down"), r);
  AbstractStorage.invalidate s r :=
    if invalidate_fails then (Raise (OtherError "backend down"), r)
    else (Ok tt, r)
|}.

(** A request context with an active session and its identity. *)
Definition example_active_request : Request :=
  {[ SESSION_KEY example_conf := SlotValue (PStr "abc");
     SESSION_OBJECT example_conf := SlotSession example_session ]}.

(** A request context that holds the session identity but no session
    object. *)
Definition example_identity_request : Request :=
  {[ SESSION_KEY example_conf := SlotValue (PStr "abc") ]}.

(** ** Facts about dictionaries *)

Lemma dict_contains_get (k : string) (d : dict) :
  Dict.contains k d = true <-> exists v, Dict.get k d = Some v.
Proof.
  unfold Dict.contains. destruct (Dict.get k d) as [v|].
  - split; [eauto | reflexivity].
  - split; [discriminate | intros [v Hv]; discriminate].
Qed.

Lemma dict_getitem_raises (k : string) (d : dict) :
  Py.raises (Dict.getitem k d) = negb (Dict.contains k d).
Proof. unfold Dict.getitem, Dict.contains. now destruct (Dict.get k d). Qed.

Lemma dict_delitem_raises (k : string) (d : dict) :
  Py.raises (Dict.delitem k d) = negb (Dict.contains k d).
Proof. unfold Dict.delitem. now destruct (Dict.contains k d). Qed.

Lemma dict_get_remove_same (k : string) (d : dict) :
  Dict.get k (Dict.remove k d) = None.
Proof.
  induction d as [|[k' v'] d IH]; simpl; [reflexivity|].
  destruct (String.eqb k k') eqn:E; simpl; [exact IH|].
  now rewrite E.
Qed.

(** ** Facts about the constructor *)

Section InitFacts.
Context (conf : Conf) (w : World) (db : Callable).

(** The value [__init__] takes for ['created'] before it computes the
    age. *)
Lemma init_age_defined (data : option dict) :
  SessionData.created_subtractable data = true ->
  let created :=
    if SessionData.data_truthy data
    then SessionData.data_get "created" data else PNone in
  exists age,
    (if truthy created then int_sub (time_now w) created
     else Ok (time_now w)) = Ok age.
Proof.
  intros Hsub created. subst created.
  destruct data as [d|]; simpl in *; [|eauto].
  destruct (Dict.truthy d); [|simpl; eauto].
  unfold Dict.get_default.
  destruct (Dict.get "created" d) as [[|b|z|c]|]; simpl; eauto.
  - destruct b; eauto.
  - destruct (z =? 0); simpl; eauto.
  - rewrite Hsub. simpl. eauto.
Qed.

(** The constructor returns an object whenever ['created'] can be
    subtracted. *)
Lemma init_returns data new identity max_age :
  SessionData.created_subtractable data = true ->
  exists s, SessionData.__init__ conf w db data new identity max_age = Ok s.
Proof.
  intros Hsub. destruct (init_age_defined data Hsub) as [age Hage].
  unfold SessionData.__init__. cbv zeta. rewrite Hage. simpl. eauto.
Qed.

(** The fields of the object the constructor returns. *)
Lemma init_fields data new identity max_age s :
  SessionData.__init__ conf w db data new identity max_age = Ok s ->
  SessionData._identity s =
    (let i := if SessionData.data_truthy data
              then SessionData.data_get (SESSION_KEY conf) data
              else identity in
     if truthy i then i else PStr (uuid4_hex w))
  /\ SessionData._new s =
       (if SessionData.data_ne_empty data then new else true)
  /\ SessionData._max_age s =
       match max_age with
       | Some m => if m =? 0 then None else Some m
       | None => None
       end
  /\ SessionData._changed s = false.
Proof.
  unfold SessionData.__init__. cbv zeta.
  destruct (if truthy _ then int_sub _ _ else Ok _) as [age|e];
    simpl; [|discriminate].
  intros [= <-]. simpl. repeat split.
  - now destruct (truthy _).
  - destruct max_age as [m|]; [|reflexivity]. now destruct (m =? 0).
Qed.

End InitFacts.

(** With the [data] argument left at its default [{}], or given as an
    empty mapping, the object is new whatever [new] says. *)
Lemma init_new_with_empty_data conf w db new identity max_age :
  exists s,
    SessionData.__init__ conf w db (Some []) new identity max_age = Ok s
    /\ SessionData.new s = true.
Proof. eexists. split; reflexivity. Qed.

(** ** Facts about single operations *)

Lemma exec_identity (o : SessionData.op) (s : SessionData.t) :
  SessionData.identity (snd (SessionData.exec o s)) = SessionData.identity s.
Proof.
  destruct o as [k|k v|k| | | | | ]; simpl; try reflexivity.
  - now destruct (SessionData.__getitem__ k s).
  - unfold SessionData.__delitem__.
    now destruct (Dict.delitem k (SessionData._data s)).
Qed.

Lemma exec_changed_stays (o : SessionData.op) (s : SessionData.t) :
  SessionData.is_changed s = true ->
  SessionData.is_changed (snd (SessionData.exec o s)) = true.
Proof.
  intros Hc.
  destruct o as [k|k v|k| | | | | ]; simpl; try reflexivity; try exact Hc.
  - now destruct (SessionData.__getitem__ k s).
  - unfold SessionData.__delitem__.
    now destruct (Dict.delitem k (SessionData._data s)).
Qed.

Lemma run_app (ops1 ops2 : list SessionData.op) (s : SessionData.t) :
  SessionData.run (ops1 ++ ops2) s =
  SessionData.run ops2 (SessionData.run ops1 s).
Proof. unfold SessionData.run. apply fold_left_app. Qed.

Lemma run_identity (ops : list SessionData.op) :
  forall s, SessionData.identity (SessionData.run ops s) = SessionData.identity s.
Proof.
  induction ops as [|o ops IH]; intros s; [reflexivity|].
  change (SessionData.run (o :: ops) s)
    with (SessionData.run ops (snd (SessionData.exec o s))).
  rewrite IH. apply exec_identity.
Qed.

Lemma run_changed_stays (ops : list SessionData.op) :
  forall s, SessionData.is_changed s = true ->
            SessionData.is_changed (SessionData.run ops s) = true.
Proof.
  induction ops as [|o ops IH]; intros s Hc; [exact Hc|].
  change (SessionData.run (o :: ops) s)
    with (SessionData.run ops (snd (SessionData.exec o s))).
  apply IH. now apply exec_changed_stays.
Qed.

(** ** SessionData: the constructor *)

(** C2, as worded: the identity follows the precedence data key, then
    explicit argument, then generated.  The constructor departs from it
    twice: a falsy identity found in the data is regenerated, and data
    without an identity key makes it ignore the explicit argument. *)
Lemma identity_precedence_fails :
  (exists s,
     SessionData.__init__ example_conf example_world example_db
       (Some [("id", PStr "")]) false PNone None = Ok s
     /\ SessionData.identity s <>
        SessionData.identity_as_specified example_conf example_world
          (Some [("id", PStr "")]) PNone)
  /\ (exists s,
        SessionData.__init__ example_conf example_world example_db
          (Some [("user", PStr "bob")]) false (PStr "abc") None = Ok s
        /\ SessionData.identity s <>
           SessionData.identity_as_specified example_conf example_world
             (Some [("user", PStr "bob")]) (PStr "abc")).
Proof.
  split; eexists; (split; [reflexivity | vm_compute; discriminate]).
Qed.

(** C2, amended: with non-empty data the identity is the data's identity
    value when that value is truthy, and a generated one when the key is
    missing or its value falsy (the explicit argument is not consulted);
    with empty or no data it is the explicit argument when truthy, and a
    generated one otherwise. *)
Theorem identity_precedence conf w db data new identity max_age :
  SessionData.created_subtractable data = true ->
  exists s,
    SessionData.__init__ conf w db data new identity max_age = Ok s
    /\ (forall d v,
          data = Some d -> Dict.get (SESSION_KEY conf) d = Some v ->
          truthy v = true -> SessionData.identity s = v)
    /\ (forall d,
          data = Some d -> d <> [] ->
          (Dict.get (SESSION_KEY conf) d = None
           \/ exists v, Dict.get (SESSION_KEY conf) d = Some v
                        /\ truthy v = false) ->
          SessionData.identity s = PStr (uuid4_hex w))
    /\ (data = None \/ data = Some [] ->
        truthy identity = true -> SessionData.identity s = identity)
    /\ (data = None \/ data = Some [] ->
        truthy identity = false ->
        SessionData.identity s = PStr (uuid4_hex w)).
Proof.
  intros Hsub.
  destruct (init_returns conf w db data new identity max_age Hsub) as [s Hs].
  exists s. split; [exact Hs|].
  destruct (init_fields conf w db data new identity max_age s Hs) as [Hid _].
  unfold SessionData.identity. rewrite Hid. clear Hid Hs. cbv zeta.
  repeat split.
  - intros d v -> Hget Hv.
    destruct d as [|kv d]; [discriminate|]. simpl SessionData.data_truthy.
    cbv iota. unfold SessionData.data_get, Dict.get_default.
    rewrite Hget, Hv. reflexivity.
  - intros d -> Hne Hget.
    destruct d as [|kv d]; [congruence|]. simpl SessionData.data_truthy.
    cbv iota. unfold SessionData.data_get, Dict.get_default.
    destruct Hget as [-> | [v [-> Hv]]]; [reflexivity|].
    rewrite Hv. reflexivity.
  - intros [-> | ->] Hi; simpl; rewrite Hi; reflexivity.
  - intros [-> | ->] Hi; simpl; rewrite Hi; reflexivity.
Qed.

Lemma identity_precedence_witness :
  SessionData.created_subtractable
    (Some [("id", PStr "abc"); ("created", PInt 1699990000)]) = true
  /\ exists s,
       SessionData.__init__ example_conf example_world example_db
         (Some [("id", PStr "abc"); ("created", PInt 1699990000)])
         false (PStr "other") (Some 3600) = Ok s
       /\ SessionData.identity s = PStr "abc".
Proof.
  split; [reflexivity|].
  destruct (identity_precedence example_conf example_world example_db
              (Some [("id", PStr "abc"); ("created", PInt 1699990000)])
              false (PStr "other") (Some 3600) eq_refl)
    as [s [Hs [Hkey _]]].
  exists s. split; [exact Hs|].
  apply (Hkey _ (PStr "abc") eq_refl); reflexivity.
Defined.

(** C4, at [data=None]: the test [data != {}] holds for [None], so the
    flag takes the value of [new], and [new=False] gives an object that
    is not new although no data was supplied. *)
Theorem new_flag_with_data_None conf w db identity max_age :
  exists s,
    SessionData.__init__ conf w db None false identity max_age = Ok s
    /\ SessionData.new s = false.
Proof. eexists. split; reflexivity. Qed.

(** C9: a falsy supplied identity is replaced by a generated one, both
    when it comes from the data (empty string or [None]) and when, with
    empty or absent data, it is the explicit argument. *)
Theorem falsy_identity_regenerated conf w db data new identity max_age :
  SessionData.created_subtractable data = true ->
  (exists d, data = Some d
             /\ (Dict.get (SESSION_KEY conf) d = Some (PStr "")
                 \/ Dict.get (SESSION_KEY conf) d = Some PNone))
  \/ ((data = None \/ data = Some []) /\ truthy identity = false) ->
  exists s,
    SessionData.__init__ conf w db data new identity max_age = Ok s
    /\ SessionData.identity s = PStr (uuid4_hex w).
Proof.
  intros Hsub Hcase.
  destruct (init_returns conf w db data new identity max_age Hsub) as [s Hs].
  exists s. split; [exact Hs|].
  destruct (init_fields conf w db data new identity max_age s Hs) as [Hid _].
  unfold SessionData.identity. rewrite Hid. clear Hid Hs. cbv zeta.
  destruct Hcase as [[d [-> Hget]] | [[-> | ->] Hi]].
  - destruct d as [|kv d]; [destruct Hget; discriminate|].
    simpl SessionData.data_truthy. cbv iota.
    unfold SessionData.data_get, Dict.get_default.
    destruct Hget as [-> | ->]; reflexivity.
  - simpl. now rewrite Hi.
  - simpl. now rewrite Hi.
Qed.

Lemma falsy_identity_regenerated_witness :
  SessionData.created_subtractable (Some [("id", PStr ""); ("user", PStr "bob")])
    = true
  /\ Dict.get (SESSION_KEY example_conf) [("id", PStr ""); ("user", PStr "bob")]
     = Some (PStr "")
  /\ exists s,
       SessionData.__init__ example_conf example_world example_db
         (Some [("id", PStr ""); ("user", PStr "bob")]) false (PStr "abc") None
       = Ok s
       /\ SessionData.identity s = PStr (uuid4_hex example_world).
Proof.
  split; [reflexivity|]. split; [reflexivity|].
  apply (falsy_identity_regenerated example_conf example_world example_db
           (Some [("id", PStr ""); ("user", PStr "bob")]) false (PStr "abc") None
           eq_refl).
  left. eexists. split; [reflexivity|]. left. reflexivity.
Defined.

(** C10: [max_age = 0] is stored as no max-age by the session, and makes
    the storage fall back to [SESSION_TIMEOUT]. *)
Theorem zero_max_age_is_no_max_age conf w db data new identity secure :
  SessionData.created_subtractable data = true ->
  (exists s,
     SessionData.__init__ conf w db data new identity (Some 0) = Ok s
     /\ SessionData.max_age s = None)
  /\ AbstractStorage.max_age (AbstractStorage.__init__ conf (Some 0) secure)
     = SESSION_TIMEOUT conf.
Proof.
  intros Hsub. split; [|reflexivity].
  destruct (init_returns conf w db data new identity (Some 0) Hsub) as [s Hs].
  exists s. split; [exact Hs|].
  destruct (init_fields conf w db data new identity (Some 0) s Hs)
    as (_ & _ & Hm & _).
  exact Hm.
Qed.

Lemma zero_max_age_is_no_max_age_witness :
  SessionData.created_subtractable (Some [("created", PInt 1699999000)]) = true
  /\ (exists s,
        SessionData.__init__ example_conf example_world example_db
          (Some [("created", PInt 1699999000)]) false PNone (Some 0) = Ok s
        /\ SessionData.max_age s = None)
  /\ AbstractStorage.max_age
       (AbstractStorage.__init__ example_conf (Some 0) None) = 3600.
Proof.
  split; [reflexivity|].
  exact (zero_max_age_is_no_max_age example_conf example_world example_db
           (Some [("created", PInt 1699999000)]) false PNone None eq_refl).
Defined.

(** ** SessionData: operations *)

(** C6: [invalidate] empties the attributes and sets the changed flag;
    identity and creation time stay as they were. *)
Theorem invalidate_clears_and_keeps_identity (s : SessionData.t) :
  SessionData.session_data (SessionData.invalidate s) = []
  /\ SessionData.empty (SessionData.invalidate s) = true
  /\ SessionData.is_changed (SessionData.invalidate s) = true
  /\ SessionData.identity (SessionData.invalidate s) = SessionData.identity s
  /\ SessionData.created (SessionData.invalidate s) = SessionData.created s.
Proof. repeat split. Qed.

(** C3, as worded: [delete] never raises, also for an absent key.  On a
    session without the key, [del] raises [KeyError] like [get] does. *)
Lemma delete_missing_key_raises :
  SessionData.__contains__ "cart" example_session = false
  /\ SessionData.__delitem__ "cart" example_session = Raise (KeyError "cart")
  /\ fst (SessionData.exec (SessionData.Delete "cart") example_session)
     = Raise (KeyError "cart").
Proof. repeat split. Qed.

(** C3, amended: [get] and [delete] of a missing key raise [KeyError],
    and nothing else raises: [get] and [delete] of a present key, [set],
    [containsKey], [length], [iterate], [invalidate] and [isEmpty] always
    return. *)
Theorem only_get_and_delete_raise (o : SessionData.op) (s : SessionData.t) :
  match fst (SessionData.exec o s) with
  | Raise e =>
      exists k, (o = SessionData.Get k \/ o = SessionData.Delete k)
                /\ SessionData.__contains__ k s = false
                /\ e = KeyError k
  | Ok _ =>
      forall k, o = SessionData.Get k \/ o = SessionData.Delete k ->
                SessionData.__contains__ k s = true
  end.
Proof.
  destruct o as [k|k v|k| | | | | ]; simpl;
    try (intros k' [H|H]; discriminate).
  - unfold SessionData.__getitem__, SessionData.__contains__,
      Dict.getitem, Dict.contains.
    destruct (Dict.get k (SessionData._data s)) as [v|] eqn:E; simpl.
    + intros k' [[= <-]|[=]]. now rewrite E.
    + exists k. rewrite E. auto.
  - unfold SessionData.__delitem__, SessionData.__contains__, Dict.delitem.
    destruct (Dict.contains k (SessionData._data s)) eqn:E; simpl.
    + intros k' [[=]|[= <-]]. exact E.
    + exists k. auto.
Qed.

(** C7: over any sequence of operations the identity stays what the
    constructor set, and once the changed flag is true it is true after
    every later operation. *)
Theorem identity_immutable_changed_monotonic
    (ops1 ops2 : list SessionData.op) (s : SessionData.t) :
  SessionData.identity (SessionData.run (ops1 ++ ops2) s) = SessionData.identity s
  /\ (SessionData.is_changed (SessionData.run ops1 s) = true ->
      SessionData.is_changed (SessionData.run (ops1 ++ ops2) s) = true).
Proof.
  split.
  - apply run_identity.
  - intros Hc. rewrite run_app. now apply run_changed_stays.
Qed.

Lemma identity_immutable_changed_monotonic_witness :
  SessionData.is_changed
    (SessionData.run [SessionData.Set_ "cart" (PInt 3)] example_session) = true
  /\ SessionData.is_changed
       (SessionData.run
          ([SessionData.Set_ "cart" (PInt 3)]
           ++ [SessionData.Get "zip"; SessionData.Delete "zip";
               SessionData.Length; SessionData.Iterate;
               SessionData.ContainsKey "cart"])
          example_session) = true.
Proof.
  split; [reflexivity|].
  apply (identity_immutable_changed_monotonic
           [SessionData.Set_ "cart" (PInt 3)]
           [SessionData.Get "zip"; SessionData.Delete "zip";
            SessionData.Length; SessionData.Iterate;
            SessionData.ContainsKey "cart"]
           example_session).
  reflexivity.
Defined.

(** ** The middleware *)

Section MiddlewareFacts.
Context (conf : Conf) {R : Type} `{MutableMapping R}
        `{AbstractStorage.Backend R}.

(** The run of the middleware around a handler that answers an
    unprepared response. *)
Lemma middleware_unprepared storage (handler : Handler) request r1 resp :
  handler (mm_setitem (SESSION_STORAGE conf) SlotStorage request)
    = (Ok (StreamResponse resp), r1) ->
  prepared resp = false ->
  middleware conf storage handler request [] =
    match as_SessionData (mm_get (SESSION_OBJECT conf) r1) with
    | Some s =>
        if SessionData.is_changed s then
          match AbstractStorage.save_session resp s r1 with
          | (Ok resp', r2) =>
              (Ok (StreamResponse resp'), r2,
               log_until_session_read conf resp ++ [EvSaveSession resp s])
          | (Raise e, r2) =>
              (Raise e, r2,
               log_until_session_read conf resp ++ [EvSaveSession resp s])
          end
        else (Ok (StreamResponse resp), r1, log_until_session_read conf resp)
    | None => (Ok (StreamResponse resp), r1, log_until_session_read conf resp)
    end.
Proof.
  intros Hh Hp.
  unfold middleware, Aio.bind, Aio.request_setitem, Aio.try_except,
    await_handler, Aio.request_get, Aio.emit, Aio.await, Aio.ret.
  simpl. rewrite Hh. simpl. rewrite Hp. simpl.
  destruct (as_SessionData (mm_get (SESSION_OBJECT conf) r1)) as [s|];
    [|reflexivity].
  destruct (SessionData.is_changed s); [|reflexivity].
  unfold Aio.await, Aio.bind, Aio.emit. simpl.
  destruct (AbstractStorage.save_session resp s r1) as [[resp'|e] r2];
    reflexivity.
Qed.

(** The run of the middleware around a handler that answers something
    that is not a response. *)
Lemma middleware_not_a_response storage (handler : Handler) request r1 v :
  handler (mm_setitem (SESSION_STORAGE conf) SlotStorage request)
    = (Ok (NotAResponse v), r1) ->
  middleware conf storage handler request [] =
    (Ok (NotAResponse v), r1,
     [EvSetItem (SESSION_STORAGE conf); EvCallHandler;
      EvHandlerReturned (NotAResponse v)]).
Proof.
  intros Hh.
  unfold middleware, Aio.bind, Aio.request_setitem, Aio.try_except,
    await_handler, Aio.emit, Aio.ret.
  simpl. rewrite Hh. reflexivity.
Qed.

End MiddlewareFacts.

Section MiddlewareClaims.
Context (conf : Conf) {R : Type} `{MutableMapping R}
        `{AbstractStorage.Backend R}.

(** C1: around a handler that answers an unprepared response, the
    middleware calls [save_session] once when the request context holds
    a changed SessionData, after the handler returned and before the
    middleware returns; it does not call it when the session is
    unchanged or when no SessionData is attached.  The call is the
    storage's [save_session] on the handler's response, that session and
    the request context as the handler left it: what the middleware
    returns or raises, and the request context afterwards, are what that
    call gives.  Without the call they are the handler's. *)
Theorem save_session_once_iff_changed
    storage (handler : Handler) request r1 resp :
  handler (mm_setitem (SESSION_STORAGE conf) SlotStorage request)
    = (Ok (StreamResponse resp), r1) ->
  prepared resp = false ->
  let tr := Aio.observe (middleware conf storage handler) request in
  let done := fst (middleware conf storage handler request []) in
  (forall s,
     mm_get (SESSION_OBJECT conf) r1 = Some (SlotSession s) ->
     SessionData.is_changed s = true ->
     count_saves tr = 1%nat
     /\ precedes (EvHandlerReturned (StreamResponse resp))
                 (EvSaveSession resp s) tr
     /\ (forall v, In (EvReturn v) tr ->
                   precedes (EvSaveSession resp s) (EvReturn v) tr)
     /\ done =
        (match fst (AbstractStorage.save_session resp s r1) with
         | Ok resp' => Ok (StreamResponse resp')
         | Raise e => Raise e
         end,
         snd (AbstractStorage.save_session resp s r1)))
  /\ (forall s,
        mm_get (SESSION_OBJECT conf) r1 = Some (SlotSession s) ->
        SessionData.is_changed s = false ->
        count_saves tr = 0%nat
        /\ done = (Ok (StreamResponse resp), r1))
  /\ (as_SessionData (mm_get (SESSION_OBJECT conf) r1) = None ->
      count_saves tr = 0%nat
      /\ done = (Ok (StreamResponse resp), r1)).
Proof.
  intros Hh Hp tr done. subst tr done. unfold Aio.observe.
  rewrite (middleware_unprepared conf storage handler request r1 resp Hh Hp).
  split; [|split].
  - intros s Hs Hc. rewrite Hs. simpl as_SessionData. cbv iota. rewrite Hc.
    destruct (AbstractStorage.save_session resp s r1) as [[resp'|e] r2];
      (split; [reflexivity|]);
      (split;
       [exists [EvSetItem (SESSION_STORAGE conf); EvCallHandler],
               [EvGet (SESSION_OBJECT conf)]; eexists; reflexivity|]);
      (split; [|reflexivity]).
    + intros v Hin. simpl in Hin.
      repeat (destruct Hin as [Hin|Hin]; [try discriminate|]);
        [|destruct Hin].
      injection Hin as <-.
      exists (log_until_session_read conf resp), [], []. reflexivity.
    + intros v Hin. simpl in Hin.
      repeat (destruct Hin as [Hin|Hin]; [discriminate|]).
      destruct Hin.
  - intros s Hs Hc. rewrite Hs. simpl as_SessionData. cbv iota. rewrite Hc.
    split; reflexivity.
  - intros Hs. rewrite Hs. split; reflexivity.
Qed.


End MiddlewareClaims.

(** ** forgot *)

Section ForgotClaims.
Context (conf : Conf) {R : Type} `{MutableMapping R}
        `{AbstractStorage.Backend R}.

(** C8: when [get_session] and [invalidate] succeed, [forgot] returns
    [True] and raises nothing, whatever the two deletions from the
    request context do. *)
Theorem forgot_returns_true
    (self : AbstractStorage.t) (request r1 r2 : R) (s : SessionData.t)
    (log : list event) :
  AbstractStorage.get_session request = (Ok s, r1) ->
  AbstractStorage.invalidate s r1 = (Ok tt, r2) ->
  fst (fst (AbstractStorage.forgot conf self request log)) = Ok true.
Proof.
  intros Hg Hi.
  unfold AbstractStorage.forgot, Aio.bind at 1, Aio.await at 1,
    Aio.bind at 1, Aio.emit at 1.
  rewrite Hg.
  unfold Aio.bind at 1, Aio.await at 1, Aio.bind at 1, Aio.emit at 1.
  rewrite Hi.
  unfold Aio.bind at 1, Aio.request_setitem at 1, Aio.bind at 1,
    Aio.emit at 1, Aio.finally_return.
  destruct (Aio.try_except _ _ _ _ _) as [[out r3] log3]. reflexivity.
Qed.

End ForgotClaims.

(** ** The claims with hypotheses, at concrete requests *)

Lemma save_session_once_iff_changed_witness :
  mutating_handler example_conf
    (mm_setitem (SESSION_STORAGE example_conf) SlotStorage (∅ : Request))
    = (Ok (StreamResponse example_response), example_request_after)
  /\ prepared example_response = false
  /\ count_saves
       (Aio.observe
          (@middleware example_conf Request Request_mapping
             (slot_backend example_conf) example_storage
             (mutating_handler example_conf))
          ∅) = 1%nat
  /\ fst (@middleware example_conf Request Request_mapping
            (slot_backend example_conf) example_storage
            (mutating_handler example_conf) ∅ [])
     = (Ok (StreamResponse
              {| status := 200; prepared := false;
                 cookies := [(SESSION_NAME example_conf, "sid")] |}),
        example_request_after).
Proof.
  split; [reflexivity|]. split; [reflexivity|].
  destruct (@save_session_once_iff_changed example_conf Request Request_mapping
              (slot_backend example_conf) example_storage
              (mutating_handler example_conf) ∅ example_request_after
              example_response ltac:(reflexivity) ltac:(reflexivity))
    as [Hchanged _].
  destruct (Hchanged
              (SessionData.__setitem__ "cart" (PInt 3) example_session)
              ltac:(apply lookup_insert_eq) eq_refl)
    as (Hone & _ & _ & Hdone).
  split; [exact Hone|]. rewrite Hdone. reflexivity.
Defined.



Lemma forgot_returns_true_witness :
  mm_delitem (SESSION_KEY example_conf) example_locked_request
    = Raise (RuntimeError "slots are locked")
  /\ fst (fst (@AbstractStorage.forgot example_conf LockedRequest
                 LockedRequest_mapping (slot_backend example_conf)
                 example_storage example_locked_request []))
     = Ok true.
Proof.
  split; [reflexivity|].
  apply (@forgot_returns_true example_conf LockedRequest LockedRequest_mapping
           (slot_backend example_conf) example_storage
           example_locked_request example_locked_request
           example_locked_request example_session []).
  - vm_compute. reflexivity.
  - reflexivity.
Defined.

(** * Further properties of the session code *)

(** ** More facts about dictionaries *)

Lemma dict_contains_cons k k' v (d : dict) :
  Dict.contains k ((k', v) :: d) = (String.eqb k k' || Dict.contains k d)%bool.
Proof. unfold Dict.contains. simpl. now destruct (String.eqb k k'). Qed.

Lemma dict_get_setitem_same k v (d : dict) :
  Dict.get k (Dict.setitem k v d) = Some v.
Proof.
  induction d as [|[k' v'] d IH]; simpl.
  - now rewrite String.eqb_refl.
  - destruct (String.eqb k k') eqn:E; simpl; rewrite E; [reflexivity|exact IH].
Qed.

Lemma dict_get_setitem_other k k' v (d : dict) :
  k' <> k -> Dict.get k' (Dict.setitem k v d) = Dict.get k' d.
Proof.
  intros Hne. induction d as [|[k0 v0] d IH]; simpl.
  - apply String.eqb_neq in Hne. now rewrite Hne.
  - destruct (String.eqb k k0) eqn:E; simpl.
    + apply String.eqb_eq in E. subst k0.
      apply String.eqb_neq in Hne. now rewrite Hne.
    + now rewrite IH.
Qed.

Lemma dict_get_remove_other k k' (d : dict) :
  k' <> k -> Dict.get k' (Dict.remove k d) = Dict.get k' d.
Proof.
  intros Hne. induction d as [|[k0 v0] d IH]; simpl; [reflexivity|].
  destruct (String.eqb k k0) eqn:E; simpl.
  - apply String.eqb_eq in E. subst k0.
    apply String.eqb_neq in Hne. now rewrite Hne.
  - now rewrite IH.
Qed.

Lemma dict_contains_keys k (d : dict) :
  Dict.contains k d = true <-> k ∈ Dict.keys d.
Proof.
  induction d as [|[k' v'] d IH]; simpl.
  - split; [discriminate | intros Hin; inversion Hin].
  - rewrite dict_contains_cons, elem_of_cons, orb_true_iff, IH,
      String.eqb_eq. reflexivity.
Qed.

Lemma dict_not_contains_keys k (d : dict) :
  Dict.contains k d = false <-> k ∉ Dict.keys d.
Proof.
  rewrite <- dict_contains_keys. destruct (Dict.contains k d); split;
    congruence.
Qed.

Lemma dict_setitem_absent k v (d : dict) :
  Dict.contains k d = false -> Dict.setitem k v d = d ++ [(k, v)].
Proof.
  induction d as [|[k' v'] d IH]; simpl; [reflexivity|].
  rewrite dict_contains_cons. intros [E Hc]%orb_false_iff.
  rewrite E. now rewrite IH.
Qed.

Lemma dict_keys_setitem_present k v (d : dict) :
  Dict.contains k d = true -> Dict.keys (Dict.setitem k v d) = Dict.keys d.
Proof.
  induction d as [|[k' v'] d IH]; simpl; [discriminate|].
  rewrite dict_contains_cons.
  destruct (String.eqb k k') eqn:E; simpl; [reflexivity|].
  intros Hc. now rewrite IH.
Qed.

Lemma dict_keys_setitem k v (d : dict) :
  Dict.keys (Dict.setitem k v d) =
  if Dict.contains k d then Dict.keys d else Dict.keys d ++ [k].
Proof.
  destruct (Dict.contains k d) eqn:E.
  - now apply dict_keys_setitem_present.
  - rewrite (dict_setitem_absent k v d E). unfold Dict.keys.
    now rewrite map_app.
Qed.

Lemma dict_remove_absent k (d : dict) :
  Dict.contains k d = false -> Dict.remove k d = d.
Proof.
  induction d as [|[k' v'] d IH]; simpl; [reflexivity|].
  rewrite dict_contains_cons. intros [E Hc]%orb_false_iff.
  rewrite E. now rewrite IH.
Qed.

Lemma dict_keys_remove_subseteq k x (d : dict) :
  x ∈ Dict.keys (Dict.remove k d) -> x ∈ Dict.keys d.
Proof.
  induction d as [|[k' v'] d IH]; simpl; [trivial|].
  destruct (String.eqb k k'); simpl; rewrite !elem_of_cons; intuition.
Qed.

Lemma dict_nodup_setitem k v (d : dict) :
  NoDup (Dict.keys d) -> NoDup (Dict.keys (Dict.setitem k v d)).
Proof.
  intros Hnd. rewrite dict_keys_setitem.
  destruct (Dict.contains k d) eqn:E; [exact Hnd|].
  apply NoDup_app. split; [exact Hnd|]. split.
  - intros x Hx Hk. apply list_elem_of_singleton in Hk. subst x.
    now apply dict_not_contains_keys in E.
  - apply NoDup_singleton.
Qed.

Lemma dict_nodup_remove k (d : dict) :
  NoDup (Dict.keys d) -> NoDup (Dict.keys (Dict.remove k d)).
Proof.
  induction d as [|[k' v'] d IH]; simpl; [trivial|].
  intros [Hnotin Hnd]%NoDup_cons.
  destruct (String.eqb k k'); simpl; [now apply IH|].
  apply NoDup_cons. split; [|now apply IH].
  intros Hin. apply Hnotin. now apply dict_keys_remove_subseteq in Hin.
Qed.

Lemma dict_nodup_update (src acc : dict) :
  NoDup (Dict.keys acc) -> NoDup (Dict.keys (Dict.update acc src)).
Proof.
  revert acc. induction src as [|[k v] src IH]; intros acc Hnd; [exact Hnd|].
  apply (IH (Dict.setitem k v acc)). now apply dict_nodup_setitem.
Qed.

Lemma dict_update_app (src acc : dict) :
  NoDup (Dict.keys (acc ++ src)) -> Dict.update acc src = acc ++ src.
Proof.
  revert acc. induction src as [|[k v] src IH]; intros acc Hnd.
  - simpl. now rewrite app_nil_r.
  - change (Dict.update acc ((k, v) :: src))
      with (Dict.update (Dict.setitem k v acc) src).
    assert (Hk : Dict.contains k acc = false).
    { apply dict_not_contains_keys. unfold Dict.keys in Hnd.
      rewrite map_app in Hnd. apply NoDup_app in Hnd as (_ & Hdisj & _).
      intros Hin. apply (Hdisj k Hin). simpl. apply elem_of_cons. now left. }
    rewrite (dict_setitem_absent k v acc Hk).
    rewrite IH; rewrite <- app_assoc; [reflexivity | exact Hnd].
Qed.

Lemma dict_length_remove k (d : dict) :
  NoDup (Dict.keys d) -> Dict.contains k d = true ->
  S (length (Dict.remove k d)) = length d.
Proof.
  induction d as [|[k' v'] d IH]; simpl; [discriminate|].
  intros [Hnotin Hnd]%NoDup_cons. rewrite dict_contains_cons.
  destruct (String.eqb k k') eqn:E; simpl.
  - intros _. apply String.eqb_eq in E. subst k'.
    apply dict_not_contains_keys in Hnotin.
    now rewrite (dict_remove_absent k d Hnotin).
  - intros Hc. now rewrite IH.
Qed.

Lemma dict_remove_setitem_absent k v (d : dict) :
  Dict.contains k d = false -> Dict.remove k (Dict.setitem k v d) = d.
Proof.
  induction d as [|[k' v'] d IH]; simpl.
  - now rewrite String.eqb_refl.
  - rewrite dict_contains_cons. intros [E Hc]%orb_false_iff.
    rewrite E. simpl. rewrite E. now rewrite IH.
Qed.

(** ** More facts about the constructor and operation sequences *)

(** The attributes and creation time of the object the constructor
    returns. *)
Lemma init_data_created conf w db data new identity max_age s :
  SessionData.__init__ conf w db data new identity max_age = Ok s ->
  SessionData._data s =
    match data with Some d => Dict.update [] d | None => [] end
  /\ SessionData._created s =
       (let created := if SessionData.data_truthy data
                       then SessionData.data_get "created" data else PNone in
        if (if SessionData.data_ne_empty data then new else true)
           || is_none created
        then PInt (time_now w) else created).
Proof.
  unfold SessionData.__init__. cbv zeta.
  destruct (if truthy _ then int_sub _ _ else Ok _) as [age|e];
    simpl; [|discriminate].
  intros [= <-]. simpl. split; reflexivity.
Qed.

(** The constructor raises exactly when ['created'] is a non-empty
    string, and then with a [TypeError]. *)
Lemma init_raises conf w db data new identity max_age e :
  SessionData.__init__ conf w db data new identity max_age = Raise e ->
  SessionData.created_subtractable data = false /\ exists msg, e = TypeError msg.
Proof.
  unfold SessionData.__init__. cbv zeta.
  destruct data as [d|]; simpl; [|discriminate].
  destruct (Dict.truthy d); [|simpl; discriminate].
  unfold Dict.get_default.
  destruct (Dict.get "created" d) as [[|b|z|c]|]; simpl; try discriminate.
  - destruct b; discriminate.
  - destruct (z =? 0); discriminate.
  - destruct (String.eqb c ""); simpl; [discriminate|].
    intros [= <-]. eauto.
Qed.

Lemma exec_nodup (o : SessionData.op) (s : SessionData.t) :
  NoDup (SessionData.__iter__ s) ->
  NoDup (SessionData.__iter__ (snd (SessionData.exec o s))).
Proof.
  intros Hnd. destruct o as [k|k v|k| | | | | ]; simpl; try exact Hnd.
  - now destruct (SessionData.__getitem__ k s).
  - now apply dict_nodup_setitem.
  - unfold SessionData.__delitem__, Dict.delitem.
    destruct (Dict.contains k (SessionData._data s)); simpl; [|exact Hnd].
    now apply dict_nodup_remove.
  - apply NoDup_nil_2.
Qed.

Lemma run_nodup (ops : list SessionData.op) :
  forall s, NoDup (SessionData.__iter__ s) ->
            NoDup (SessionData.__iter__ (SessionData.run ops s)).
Proof.
  induction ops as [|o ops IH]; intros s Hnd; [exact Hnd|].
  change (SessionData.run (o :: ops) s)
    with (SessionData.run ops (snd (SessionData.exec o s))).
  apply IH. now apply exec_nodup.
Qed.

Lemma run_read_only (ops : list SessionData.op) :
  forall s, forallb read_only ops = true -> SessionData.run ops s = s.
Proof.
  induction ops as [|o ops IH]; intros s Hro; [reflexivity|].
  simpl in Hro. apply andb_true_iff in Hro as [Ho Hro].
  change (SessionData.run (o :: ops) s)
    with (SessionData.run ops (snd (SessionData.exec o s))).
  assert (Hs : snd (SessionData.exec o s) = s).
  { destruct o as [k|k v|k| | | | | ]; simpl in *; try discriminate;
      try reflexivity.
    now destruct (SessionData.__getitem__ k s). }
  rewrite Hs. now apply IH.
Qed.

Lemma run_writes_changed (ops : list SessionData.op) :
  forall s, existsb always_writes ops = true ->
            SessionData.is_changed (SessionData.run ops s) = true.
Proof.
  induction ops as [|o ops IH]; intros s Hw; [discriminate|].
  change (SessionData.run (o :: ops) s)
    with (SessionData.run ops (snd (SessionData.exec o s))).
  simpl in Hw. apply orb_true_iff in Hw as [Ho|Hw]; [|now apply IH].
  apply run_changed_stays.
  destruct o as [k|k v|k| | | | | ]; simpl in *; try discriminate; reflexivity.
Qed.

(** ** SessionData: item access *)

(** X1: what [s[k] = v] stores is what [s[k]] answers, the key is then
    contained, and the other keys answer as before. *)
Theorem setitem_then_getitem k v (s : SessionData.t) :
  SessionData.__getitem__ k (SessionData.__setitem__ k v s) = Ok v
  /\ SessionData.__contains__ k (SessionData.__setitem__ k v s) = true
  /\ (forall k', k' <> k ->
        SessionData.__getitem__ k' (SessionData.__setitem__ k v s)
        = SessionData.__getitem__ k' s).
Proof.
  unfold SessionData.__getitem__, SessionData.__contains__,
    SessionData.__setitem__, Dict.getitem, Dict.contains. simpl.
  rewrite dict_get_setitem_same. repeat split.
  intros k' Hne. now rewrite dict_get_setitem_other.
Qed.

(** X2: after a successful [del s[k]] the key is gone ([s[k]] raises
    [KeyError], [k in s] is false), the session is marked changed, and
    the other keys answer as before. *)
Theorem delitem_removes_key k (s s' : SessionData.t) :
  SessionData.__delitem__ k s = Ok s' ->
  SessionData.__getitem__ k s' = Raise (KeyError k)
  /\ SessionData.__contains__ k s' = false
  /\ SessionData.is_changed s' = true
  /\ (forall k', k' <> k ->
        SessionData.__getitem__ k' s' = SessionData.__getitem__ k' s).
Proof.
  unfold SessionData.__delitem__, Dict.delitem.
  destruct (Dict.contains k (SessionData._data s)); simpl; [|discriminate].
  intros [= <-].
  unfold SessionData.__getitem__, SessionData.__contains__, Dict.getitem,
    Dict.contains. simpl.
  rewrite dict_get_remove_same. repeat split.
  intros k' Hne. now rewrite dict_get_remove_other.
Qed.

Lemma delitem_removes_key_witness :
  SessionData.__delitem__ "user" example_session
    = Ok (SessionData.with_changed true (SessionData.with_data [] example_session))
  /\ SessionData.__getitem__ "user"
       (SessionData.with_changed true (SessionData.with_data [] example_session))
     = Raise (KeyError "user").
Proof.
  split; [reflexivity|].
  apply (delitem_removes_key "user" example_session _ eq_refl).
Defined.

(** X3: iteration keeps insertion order: assigning to a key the session
    already has leaves the order of the keys as it was, assigning to a
    new key puts it last. *)
Theorem setitem_keeps_insertion_order k v (s : SessionData.t) :
  SessionData.__iter__ (SessionData.__setitem__ k v s) =
  if SessionData.__contains__ k s then SessionData.__iter__ s
  else SessionData.__iter__ s ++ [k].
Proof. apply dict_keys_setitem. Qed.

(** X4: the introspection operations agree with one another: the length
    is the number of keys iteration yields, a key is contained exactly
    when iteration yields it and exactly when item access succeeds, and
    the session is empty exactly when its length is zero. *)
Theorem introspection_agrees (s : SessionData.t) :
  SessionData.__len__ s = Z.of_nat (length (SessionData.__iter__ s))
  /\ (forall k, SessionData.__contains__ k s = true
                <-> k ∈ SessionData.__iter__ s)
  /\ (forall k, SessionData.__contains__ k s = true
                <-> exists v, SessionData.__getitem__ k s = Ok v)
  /\ (SessionData.empty s = true <-> SessionData.__len__ s = 0).
Proof.
  unfold SessionData.__len__, SessionData.__iter__, SessionData.__contains__,
    SessionData.__getitem__, SessionData.empty, Dict.len, Dict.keys.
  split; [now rewrite length_map|].
  split; [intros k; apply dict_contains_keys|].
  split.
  - intros k. unfold Dict.contains, Dict.getitem.
    destruct (Dict.get k (SessionData._data s)) as [v|].
    + split; [eauto | reflexivity].
    + split; [discriminate | intros [v Hv]; discriminate].
  - destruct (SessionData._data s); simpl; split; intros Hz;
      try reflexivity; discriminate.
Qed.

(** X5: assigning to a key the session has leaves the length as it was;
    assigning to a new key adds one. *)
Theorem setitem_length k v (s : SessionData.t) :
  SessionData.__len__ (SessionData.__setitem__ k v s) =
  if SessionData.__contains__ k s then SessionData.__len__ s
  else SessionData.__len__ s + 1.
Proof.
  unfold SessionData.__len__, SessionData.__contains__,
    SessionData.__setitem__, Dict.len. simpl.
  pose proof (dict_keys_setitem k v (SessionData._data s)) as Hk.
  apply (f_equal (@length string)) in Hk. unfold Dict.keys in Hk.
  rewrite length_map in Hk. rewrite Hk.
  destruct (Dict.contains k (SessionData._data s)).
  - now rewrite length_map.
  - rewrite length_app, length_map. simpl. lia.
Qed.

(** X6: on a session whose keys are distinct, a successful [del s[k]]
    shortens the session by exactly one. *)
Theorem delitem_length k (s s' : SessionData.t) :
  NoDup (SessionData.__iter__ s) ->
  SessionData.__delitem__ k s = Ok s' ->
  SessionData.__len__ s' = SessionData.__len__ s - 1.
Proof.
  intros Hnd. unfold SessionData.__delitem__, Dict.delitem.
  destruct (Dict.contains k (SessionData._data s)) eqn:E; simpl;
    [|discriminate].
  intros [= <-]. unfold SessionData.__len__, Dict.len. simpl.
  pose proof (dict_length_remove k (SessionData._data s) Hnd E). lia.
Qed.

Lemma delitem_length_witness :
  NoDup (SessionData.__iter__ example_session)
  /\ SessionData.__len__
       (SessionData.with_changed true (SessionData.with_data [] example_session))
     = SessionData.__len__ example_session - 1.
Proof.
  assert (Hnd : NoDup (SessionData.__iter__ example_session)).
  { apply NoDup_singleton. }
  split; [exact Hnd|].
  apply (delitem_length "user" example_session _ Hnd eq_refl).
Defined.

(** X7: assigning to a key the session lacks and deleting it again gives
    back the attributes as they were, but leaves the session marked
    changed. *)
Theorem setitem_then_delitem k v (s : SessionData.t) :
  SessionData.__contains__ k s = false ->
  exists s',
    SessionData.__delitem__ k (SessionData.__setitem__ k v s) = Ok s'
    /\ SessionData.session_data s' = SessionData.session_data s
    /\ SessionData.is_changed s' = true.
Proof.
  intros Hc. unfold SessionData.__delitem__, SessionData.__setitem__,
    Dict.delitem. simpl.
  unfold SessionData.__contains__ in Hc. unfold Dict.contains at 1.
  rewrite dict_get_setitem_same. simpl.
  eexists. split; [reflexivity|]. simpl.
  split; [now apply dict_remove_setitem_absent | reflexivity].
Qed.

Lemma setitem_then_delitem_witness :
  SessionData.__contains__ "cart" example_session = false
  /\ exists s',
       SessionData.__delitem__ "cart"
         (SessionData.__setitem__ "cart" (PInt 3) example_session) = Ok s'
       /\ SessionData.session_data s' = SessionData.session_data example_session
       /\ SessionData.is_changed s' = true.
Proof.
  split; [reflexivity|].
  apply (setitem_then_delitem "cart" (PInt 3) example_session eq_refl).
Defined.

(** X8: a sequence of read-only operations (get, containsKey, length,
    iterate, isEmpty, failing gets included) leaves the whole object as
    it was; a sequence that holds a set or an invalidate leaves it marked
    changed. *)
Theorem changed_tracks_writes (ops : list SessionData.op) (s : SessionData.t) :
  (forallb read_only ops = true -> SessionData.run ops s = s)
  /\ (existsb always_writes ops = true ->
      SessionData.is_changed (SessionData.run ops s) = true).
Proof. split; [apply run_read_only | apply run_writes_changed]. Qed.

Lemma changed_tracks_writes_witness :
  forallb read_only [SessionData.Get "zip"; SessionData.Length] = true
  /\ SessionData.run [SessionData.Get "zip"; SessionData.Length] example_session
     = example_session.
Proof.
  split; [reflexivity|].
  apply (changed_tracks_writes [SessionData.Get "zip"; SessionData.Length]
           example_session).
  reflexivity.
Defined.

(** X9: [invalidate] wipes out what earlier operations did: after any
    sequence of operations it gives the object that invalidating the
    original session gives (so it is idempotent), and then every item
    access raises [KeyError] and iteration yields nothing. *)
Theorem invalidate_forgets_operations
    (ops : list SessionData.op) (s : SessionData.t) :
  SessionData.invalidate (SessionData.run ops s) = SessionData.invalidate s
  /\ SessionData.invalidate (SessionData.invalidate s) = SessionData.invalidate s
  /\ (forall k, SessionData.__getitem__ k (SessionData.invalidate s)
                = Raise (KeyError k))
  /\ SessionData.__iter__ (SessionData.invalidate s) = [].
Proof.
  split; [|repeat split].
  revert s. induction ops as [|o ops IH]; intros s; [reflexivity|].
  change (SessionData.run (o :: ops) s)
    with (SessionData.run ops (snd (SessionData.exec o s))).
  rewrite IH. destruct o as [k|k v|k| | | | | ]; simpl; try reflexivity.
  - now destruct (SessionData.__getitem__ k s).
  - unfold SessionData.__delitem__.
    now destruct (Dict.delitem k (SessionData._data s)).
Qed.

(** ** SessionData: more on the constructor *)

(** X10: the keys of a session are distinct from construction on: after
    the constructor and any sequence of operations, iteration yields no
    key twice. *)
Theorem keys_stay_distinct conf w db data new identity max_age s
    (ops : list SessionData.op) :
  SessionData.__init__ conf w db data new identity max_age = Ok s ->
  NoDup (SessionData.__iter__ (SessionData.run ops s)).
Proof.
  intros Hs. apply run_nodup.
  destruct (init_data_created conf w db data new identity max_age s Hs)
    as [Hd _].
  unfold SessionData.__iter__. rewrite Hd.
  destruct data as [d|]; [|apply NoDup_nil_2].
  apply dict_nodup_update. apply NoDup_nil_2.
Qed.

Lemma keys_stay_distinct_witness :
  exists s,
    SessionData.__init__ example_conf example_world example_db
      (Some [("user", PStr "bob")]) false PNone None = Ok s
    /\ NoDup (SessionData.__iter__
                (SessionData.run
                   [SessionData.Set_ "user" (PStr "eve");
                    SessionData.Set_ "cart" (PInt 3)] s)).
Proof.
  eexists. split; [reflexivity|].
  apply (keys_stay_distinct example_conf example_world example_db
           (Some [("user", PStr "bob")]) false PNone None _
           [SessionData.Set_ "user" (PStr "eve"); SessionData.Set_ "cart" (PInt 3)]
           eq_refl).
Defined.

(** X11: the constructor copies the supplied data: for data with
    distinct keys the attributes are the data, in the same order, and the
    new object is not marked changed.  This holds for every [max_age],
    also when the data's age exceeds it. *)
Theorem init_copies_data conf w db (d : dict) new identity max_age :
  NoDup (Dict.keys d) ->
  SessionData.created_subtractable (Some d) = true ->
  exists s,
    SessionData.__init__ conf w db (Some d) new identity max_age = Ok s
    /\ SessionData.session_data s = d
    /\ SessionData.is_changed s = false.
Proof.
  intros Hnd Hsub.
  destruct (init_returns conf w db (Some d) new identity max_age Hsub)
    as [s Hs].
  exists s. split; [exact Hs|].
  destruct (init_data_created conf w db (Some d) new identity max_age s Hs)
    as [Hd _].
  destruct (init_fields conf w db (Some d) new identity max_age s Hs)
    as (_ & _ & _ & Hc).
  split; [|exact Hc].
  unfold SessionData.session_data. rewrite Hd.
  now apply (dict_update_app d []).
Qed.

Lemma init_copies_data_witness :
  NoDup (Dict.keys [("id", PStr "abc"); ("created", PInt 1000)])
  /\ SessionData.created_subtractable
       (Some [("id", PStr "abc"); ("created", PInt 1000)]) = true
  /\ exists s,
       SessionData.__init__ example_conf example_world example_db
         (Some [("id", PStr "abc"); ("created", PInt 1000)])
         false PNone (Some 60) = Ok s
       /\ SessionData.session_data s
          = [("id", PStr "abc"); ("created", PInt 1000)]
       /\ SessionData.is_changed s = false.
Proof.
  assert (Hnd : NoDup (Dict.keys [("id", PStr "abc"); ("created", PInt 1000)])).
  { apply NoDup_cons. split; [|apply NoDup_singleton].
    intros Hin. apply list_elem_of_singleton in Hin. discriminate. }
  split; [exact Hnd|]. split; [reflexivity|].
  apply (init_copies_data example_conf example_world example_db
           [("id", PStr "abc"); ("created", PInt 1000)] false PNone (Some 60)
           Hnd eq_refl).
Defined.

(** X12: the creation time.  It is the current time when the data is
    empty or absent, when [new] is true, or when the data has no
    ['created'] value (or [None]); a session built with [new=False] from
    data that carries a ['created'] value keeps that value. *)
Theorem init_created conf w db data new identity max_age s :
  SessionData.__init__ conf w db data new identity max_age = Ok s ->
  (data = None \/ data = Some [] -> SessionData.created s = PInt (time_now w))
  /\ (data <> Some [] -> new = true ->
      SessionData.created s = PInt (time_now w))
  /\ (forall d, data = Some d ->
        Dict.get "created" d = None \/ Dict.get "created" d = Some PNone ->
        SessionData.created s = PInt (time_now w))
  /\ (forall d c, data = Some d -> new = false ->
        Dict.get "created" d = Some c -> c <> PNone ->
        SessionData.created s = c).
Proof.
  intros Hs.
  destruct (init_data_created conf w db data new identity max_age s Hs)
    as [_ Hc].
  unfold SessionData.created. rewrite Hc. clear Hc Hs. cbv zeta.
  repeat split.
  - intros [-> | ->]; simpl; [now rewrite orb_true_r | reflexivity].
  - intros Hne ->. destruct data as [[|kv d]|];
      [exfalso; now apply Hne | reflexivity..].
  - intros d -> Hget. destruct d as [|kv d]; [reflexivity|].
    simpl SessionData.data_truthy. simpl SessionData.data_ne_empty. cbv iota.
    unfold SessionData.data_get, Dict.get_default.
    destruct Hget as [-> | ->]; simpl; now rewrite orb_true_r.
  - intros d c -> -> Hget Hc. destruct d as [|kv d]; [discriminate|].
    simpl SessionData.data_truthy. simpl SessionData.data_ne_empty. cbv iota.
    unfold SessionData.data_get, Dict.get_default. rewrite Hget.
    destruct c; [congruence | reflexivity..].
Qed.

Lemma init_created_witness :
  exists s,
    SessionData.__init__ example_conf example_world example_db
      (Some [("id", PStr "abc"); ("created", PInt 1000)])
      false PNone (Some 60) = Ok s
    /\ SessionData.created s = PInt 1000.
Proof.
  eexists. split; [reflexivity|].
  refine (proj2 (proj2 (proj2
    (init_created example_conf example_world example_db
       (Some [("id", PStr "abc"); ("created", PInt 1000)])
       false PNone (Some 60) _ eq_refl)))
    [("id", PStr "abc"); ("created", PInt 1000)] (PInt 1000)
    eq_refl eq_refl eq_refl _).
  discriminate.
Defined.

(** X13: the constructor fails exactly when the data carries a non-empty
    string as ['created'] (the subtraction [now - created] is then not
    defined), and it fails with a [TypeError]; in every other case it
    returns an object. *)
Theorem init_raises_iff conf w db data new identity max_age :
  match SessionData.__init__ conf w db data new identity max_age with
  | Ok _ => SessionData.created_subtractable data = true
  | Raise e =>
      (exists d c, data = Some d /\ Dict.get "created" d = Some (PStr c)
                   /\ c <> "")
      /\ exists msg, e = TypeError msg
  end.
Proof.
  destruct (SessionData.__init__ conf w db data new identity max_age)
    as [s|e] eqn:E.
  - destruct (SessionData.created_subtractable data) eqn:Hsub;
      [reflexivity|].
    exfalso. revert E. unfold SessionData.__init__. cbv zeta.
    destruct data as [d|]; simpl in *; [|discriminate].
    destruct (Dict.get "created" d) as [[|b|z|c]|] eqn:G; try discriminate.
    destruct d as [|kv d]; [discriminate|].
    simpl Dict.truthy. cbv iota. unfold Dict.get_default. rewrite G.
    simpl. rewrite Hsub. simpl. discriminate.
  - destruct (init_raises conf w db data new identity max_age e E)
      as [Hsub Hmsg].
    split; [|exact Hmsg].
    destruct data as [d|]; simpl in Hsub; [|discriminate].
    destruct (Dict.get "created" d) as [[|b|z|c]|] eqn:G; try discriminate.
    exists d, c. split; [reflexivity|]. split; [exact G|].
    intros ->. discriminate.
Qed.

(** X14: [max_age] decides nothing but the stored max-age: two
    constructions that differ only in [max_age] fail alike or return
    objects equal in every other field.  An over-age session is neither
    emptied nor marked. *)
Theorem init_does_not_expire conf w db data new identity m1 m2 :
  match SessionData.__init__ conf w db data new identity m1,
        SessionData.__init__ conf w db data new identity m2 with
  | Ok s1, Ok s2 =>
      SessionData.set_max_age None s1 = SessionData.set_max_age None s2
  | Raise e1, Raise e2 => e1 = e2
  | _, _ => False
  end.
Proof.
  unfold SessionData.__init__. cbv zeta.
  destruct (if truthy _ then int_sub _ _ else Ok _) as [age|e]; simpl;
    reflexivity.
Qed.

(** ** AbstractStorage *)

(** X15: a storage never holds a zero max-age when the configured
    [SESSION_TIMEOUT] is not zero: a given non-zero [max_age] is kept, a
    zero or missing one is replaced by [SESSION_TIMEOUT]. *)
Theorem storage_max_age_nonzero conf (max_age : option Z) secure :
  SESSION_TIMEOUT conf <> 0 ->
  AbstractStorage.max_age (AbstractStorage.__init__ conf max_age secure) <> 0
  /\ (forall m, max_age = Some m -> m <> 0 ->
        AbstractStorage.max_age (AbstractStorage.__init__ conf max_age secure)
        = m)
  /\ (max_age = None ->
      AbstractStorage.max_age (AbstractStorage.__init__ conf max_age secure)
      = SESSION_TIMEOUT conf).
Proof.
  intros Ht. unfold AbstractStorage.__init__.
  destruct max_age as [m|]; simpl.
  - destruct (Z.eqb_spec m 0) as [->|Hm]; simpl.
    + split; [exact Ht|]. split; [|discriminate].
      intros m [= <-] Hm. congruence.
    + split; [exact Hm|]. split; [|discriminate].
      now intros m' [= <-] _.
  - split; [exact Ht|]. split; [|reflexivity]. intros m [=].
Qed.

Lemma storage_max_age_nonzero_witness :
  SESSION_TIMEOUT example_conf <> 0
  /\ AbstractStorage.max_age
       (AbstractStorage.__init__ example_conf (Some 0) None) <> 0.
Proof.
  assert (Ht : SESSION_TIMEOUT example_conf <> 0) by discriminate.
  split; [exact Ht|].
  exact (proj1 (storage_max_age_nonzero example_conf (Some 0) None Ht)).
Defined.

(** ** The middleware: the remaining paths *)

Section MiddlewarePaths.
Context (conf : Conf) {R : Type} `{MutableMapping R}
        `{AbstractStorage.Backend R}.

(** The run of the middleware around a handler that raises. *)
Lemma middleware_handler_raises storage (handler : Handler) request r1 e :
  handler (mm_setitem (SESSION_STORAGE conf) SlotStorage request)
    = (Raise e, r1) ->
  middleware conf storage handler request [] =
    (Raise e, r1,
     [EvSetItem (SESSION_STORAGE conf); EvCallHandler; EvHandlerRaised e]).
Proof.
  intros Hh.
  unfold middleware, Aio.bind, Aio.request_setitem, Aio.try_except,
    await_handler, Aio.emit, Aio.raise.
  simpl. rewrite Hh. now destruct (is_HTTPException e).
Qed.

(** The run of the middleware around a handler that answers a prepared
    response. *)
Lemma middleware_prepared storage (handler : Handler) request r1 resp :
  handler (mm_setitem (SESSION_STORAGE conf) SlotStorage request)
    = (Ok (StreamResponse resp), r1) ->
  prepared resp = true ->
  middleware conf storage handler request [] =
    (Raise (RuntimeError "We Cannot save session data into on prepared responses"),
     r1,
     [EvSetItem (SESSION_STORAGE conf); EvCallHandler;
      EvHandlerReturned (StreamResponse resp)]).
Proof.
  intros Hh Hp.
  unfold middleware, Aio.bind, Aio.request_setitem, Aio.try_except,
    await_handler, Aio.emit, Aio.raise.
  simpl. rewrite Hh. simpl. now rewrite Hp.
Qed.

(** X16: an exception of the handler, an HTTP exception or any other,
    leaves the middleware as it is; the session slot is not read,
    [save_session] is not called, and the request context stays as the
    handler left it. *)
Theorem handler_exception_propagates
    storage (handler : Handler) request r1 e :
  handler (mm_setitem (SESSION_STORAGE conf) SlotStorage request)
    = (Raise e, r1) ->
  let '(out, r2, _) := middleware conf storage handler request [] in
  let tr := Aio.observe (middleware conf storage handler) request in
  out = Raise e
  /\ r2 = r1
  /\ count_saves tr = 0%nat
  /\ (forall ev, In ev tr -> is_session_read conf ev = false)
  /\ last tr = Some (EvRaise e).
Proof.
  intros Hh. unfold Aio.observe.
  rewrite (middleware_handler_raises storage handler request r1 e Hh).
  repeat split.
  intros ev Hin. simpl in Hin.
  repeat (destruct Hin as [<-|Hin]; [reflexivity|]).
  destruct Hin.
Qed.

(** X17: a response that is already prepared makes the middleware raise
    a [RuntimeError] instead of returning it; [save_session] is not
    called and the session slot is not read, whatever the request
    context holds. *)
Theorem prepared_response_is_refused
    storage (handler : Handler) request r1 resp :
  handler (mm_setitem (SESSION_STORAGE conf) SlotStorage request)
    = (Ok (StreamResponse resp), r1) ->
  prepared resp = true ->
  let '(out, r2, _) := middleware conf storage handler request [] in
  let tr := Aio.observe (middleware conf storage handler) request in
  (exists msg, out = Raise (RuntimeError msg))
  /\ r2 = r1
  /\ count_saves tr = 0%nat
  /\ (forall ev, In ev tr -> is_session_read conf ev = false).
Proof.
  intros Hh Hp. unfold Aio.observe.
  rewrite (middleware_prepared storage handler request r1 resp Hh Hp).
  split; [eauto|]. repeat split.
  intros ev Hin. simpl in Hin.
  repeat (destruct Hin as [<-|Hin]; [reflexivity|]).
  destruct Hin.
Qed.

(** X18: whatever the handler does, one run of the middleware writes the
    storage slot first, calls the handler exactly once and calls
    [save_session] at most once; and it calls [save_session] only when
    the handler answered an unprepared response and the request context
    then holds a changed SessionData. *)
Theorem middleware_calls_once storage (handler : Handler) request :
  let tr := Aio.observe (middleware conf storage handler) request in
  (exists rest, tr = EvSetItem (SESSION_STORAGE conf) :: EvCallHandler :: rest)
  /\ count_handler_calls tr = 1%nat
  /\ (count_saves tr <= 1)%nat
  /\ (count_saves tr = 1%nat ->
      exists resp r1 s,
        handler (mm_setitem (SESSION_STORAGE conf) SlotStorage request)
          = (Ok (StreamResponse resp), r1)
        /\ prepared resp = false
        /\ as_SessionData (mm_get (SESSION_OBJECT conf) r1) = Some s
        /\ SessionData.is_changed s = true).
Proof.
  intros tr. subst tr. unfold Aio.observe.
  destruct (handler (mm_setitem (SESSION_STORAGE conf) SlotStorage request))
    as [[[resp|v]|e] r1] eqn:Hh.
  - destruct (prepared resp) eqn:Hp.
    + rewrite (middleware_prepared storage handler request r1 resp Hh Hp).
      simpl. repeat split; [eauto | vm_compute; lia | intros Hone; vm_compute in Hone; discriminate].
    + rewrite (middleware_unprepared conf storage handler request r1 resp Hh Hp).
      destruct (as_SessionData (mm_get (SESSION_OBJECT conf) r1)) as [s|] eqn:Hs;
        [destruct (SessionData.is_changed s) eqn:Hc|].
      * destruct (AbstractStorage.save_session resp s r1) as [[resp'|e] r2];
          simpl; (repeat split; [eauto | vm_compute; lia |]); intros _;
          exists resp, r1, s; auto.
      * simpl. repeat split; [eauto | vm_compute; lia | intros Hone; vm_compute in Hone; discriminate].
      * simpl. repeat split; [eauto | vm_compute; lia | intros Hone; vm_compute in Hone; discriminate].
  - rewrite (middleware_not_a_response conf storage handler request r1 v Hh).
    simpl. repeat split; [eauto | vm_compute; lia | intros Hone; vm_compute in Hone; discriminate].
  - rewrite (middleware_handler_raises storage handler request r1 e Hh).
    simpl. repeat split; [eauto | vm_compute; lia | intros Hone; vm_compute in Hone; discriminate].
Qed.

(** X19: when the handler answered an unprepared response and the
    request context holds no SessionData or an unchanged one, the
    middleware returns the handler's response itself and leaves the
    request context as the handler left it. *)
Theorem unsaved_response_returned
    storage (handler : Handler) request r1 resp :
  handler (mm_setitem (SESSION_STORAGE conf) SlotStorage request)
    = (Ok (StreamResponse resp), r1) ->
  prepared resp = false ->
  (as_SessionData (mm_get (SESSION_OBJECT conf) r1) = None
   \/ exists s, as_SessionData (mm_get (SESSION_OBJECT conf) r1) = Some s
                /\ SessionData.is_changed s = false) ->
  fst (middleware conf storage handler request [])
  = (Ok (StreamResponse resp), r1).
Proof.
  intros Hh Hp Hcase.
  rewrite (middleware_unprepared conf storage handler request r1 resp Hh Hp).
  destruct Hcase as [-> | [s [-> ->]]]; reflexivity.
Qed.

(** X20: when a changed SessionData is attached, [save_session] gets the
    handler's response and that session; the middleware returns the
    response as [save_session] left it, and an exception of
    [save_session] leaves the middleware in place of a response. *)
Theorem save_outcome_is_middleware_outcome
    storage (handler : Handler) request r1 resp s :
  handler (mm_setitem (SESSION_STORAGE conf) SlotStorage request)
    = (Ok (StreamResponse resp), r1) ->
  prepared resp = false ->
  as_SessionData (mm_get (SESSION_OBJECT conf) r1) = Some s ->
  SessionData.is_changed s = true ->
  let '(out, r2, tr) := middleware conf storage handler request [] in
  In (EvSaveSession resp s) tr
  /\ r2 = snd (AbstractStorage.save_session resp s r1)
  /\ out = match fst (AbstractStorage.save_session resp s r1) with
           | Ok resp' => Ok (StreamResponse resp')
           | Raise e => Raise e
           end.
Proof.
  intros Hh Hp Hs Hc.
  rewrite (middleware_unprepared conf storage handler request r1 resp Hh Hp).
  rewrite Hs, Hc.
  destruct (AbstractStorage.save_session resp s r1) as [[resp'|e] r2]; simpl;
    (split; [|split; reflexivity]); repeat (try (left; reflexivity); right).
Qed.

End MiddlewarePaths.

Lemma handler_exception_propagates_witness :
  redirecting_handler
    (mm_setitem (SESSION_STORAGE example_conf) SlotStorage example_request)
    = (Raise (HTTPException 302),
       <[SESSION_STORAGE example_conf := SlotStorage]> example_request)
  /\ fst (fst (@middleware example_conf Request Request_mapping
                 (slot_backend example_conf) example_storage
                 redirecting_handler example_request []))
     = Raise (HTTPException 302).
Proof.
  split; [reflexivity|].
  pose proof (@handler_exception_propagates example_conf Request
                Request_mapping (slot_backend example_conf) example_storage
                redirecting_handler example_request
                (<[SESSION_STORAGE example_conf := SlotStorage]> example_request)
                (HTTPException 302) ltac:(reflexivity)) as Hraise.
  destruct (@middleware example_conf Request Request_mapping
              (slot_backend example_conf) example_storage
              redirecting_handler example_request [])
    as [[out r2] log].
  exact (proj1 Hraise).
Defined.

Lemma prepared_response_is_refused_witness :
  streaming_handler
    (mm_setitem (SESSION_STORAGE example_conf) SlotStorage example_request)
    = (Ok (StreamResponse {| status := 200; prepared := true; cookies := [] |}),
       <[SESSION_STORAGE example_conf := SlotStorage]> example_request)
  /\ exists msg,
       fst (fst (@middleware example_conf Request Request_mapping
                   (slot_backend example_conf) example_storage
                   streaming_handler example_request []))
       = Raise (RuntimeError msg).
Proof.
  split; [reflexivity|].
  pose proof (@prepared_response_is_refused example_conf Request
                Request_mapping (slot_backend example_conf) example_storage
                streaming_handler example_request
                (<[SESSION_STORAGE example_conf := SlotStorage]> example_request)
                {| status := 200; prepared := true; cookies := [] |}
                ltac:(reflexivity) ltac:(reflexivity)) as Hrefused.
  destruct (@middleware example_conf Request Request_mapping
              (slot_backend example_conf) example_storage
              streaming_handler example_request [])
    as [[out r2] log].
  exact (proj1 Hrefused).
Defined.

Lemma unsaved_response_returned_witness :
  fst (@middleware example_conf Request Request_mapping
         (slot_backend example_conf) example_storage
         (session_handler example_conf [SessionData.Get "user"] example_response)
         example_request [])
  = (Ok (StreamResponse example_response),
     <[SESSION_OBJECT example_conf := SlotSession example_session]>
       (<[SESSION_STORAGE example_conf := SlotStorage]> example_request)).
Proof.
  apply (@unsaved_response_returned example_conf Request Request_mapping
           (slot_backend example_conf) example_storage
           (session_handler example_conf [SessionData.Get "user"] example_response)
           example_request _ example_response).
  - vm_compute. reflexivity.
  - reflexivity.
  - right. exists example_session. split; [vm_compute|]; reflexivity.
Defined.

Lemma save_outcome_is_middleware_outcome_witness :
  fst (fst (@middleware example_conf Request Request_mapping
              (failing_backend false false) example_storage
              (mutating_handler example_conf) ∅ []))
  = Raise (OtherError "backend down").
Proof.
  pose proof (@save_outcome_is_middleware_outcome example_conf Request
                Request_mapping (failing_backend false false) example_storage
                (mutating_handler example_conf) ∅ example_request_after
                example_response
                (SessionData.__setitem__ "cart" (PInt 3) example_session)
                ltac:(reflexivity) ltac:(reflexivity)
                ltac:(vm_compute; reflexivity)
                ltac:(reflexivity)) as Hsave.
  destruct (@middleware example_conf Request Request_mapping
              (failing_backend false false) example_storage
              (mutating_handler example_conf) ∅ [])
    as [[out r2] log].
  exact (proj2 (proj2 Hsave)).
Defined.

(** ** Handlers that use the session, under the middleware *)

Lemma run_until_raise_completes (ops : list SessionData.op) :
  forall s, fst (run_until_raise ops s) = None ->
            snd (run_until_raise ops s) = SessionData.run ops s.
Proof.
  induction ops as [|o ops IH]; intros s Hnone; [reflexivity|].
  change (SessionData.run (o :: ops) s)
    with (SessionData.run ops (snd (SessionData.exec o s))).
  simpl in *. destruct (SessionData.exec o s) as [[a|e] s']; simpl in *.
  - now apply IH.
  - discriminate.
Qed.

Section LazyWrite.
Context (conf : Conf) `{AbstractStorage.Backend Request}.

(** What a scripted handler hands back to the middleware. *)
Lemma scripted_handler_outcome (request : Request) s0 catches ops resp :
  SESSION_OBJECT conf <> SESSION_STORAGE conf ->
  request !! SESSION_OBJECT conf = Some (SlotSession s0) ->
  scripted_handler conf catches ops resp
    (mm_setitem (SESSION_STORAGE conf) SlotStorage request)
  = (match (if catches then None else fst (run_until_raise ops s0)) with
     | None => Ok (StreamResponse resp)
     | Some e => Raise e
     end,
     <[SESSION_OBJECT conf :=
         SlotSession (if catches then SessionData.run ops s0
                      else snd (run_until_raise ops s0))]>
       (<[SESSION_STORAGE conf := SlotStorage]> request)).
Proof.
  intros Hne Hslot. unfold scripted_handler. simpl.
  rewrite lookup_insert_ne by congruence. rewrite Hslot. simpl.
  destruct catches; [reflexivity|].
  now destruct (run_until_raise ops s0) as [[e|] s'].
Qed.

(** X21: a handler that performs session operations on an unchanged
    session attached to the request (under a slot name other than the
    storage's) and then answers a response.  If the operations only read,
    [save_session] is not called.  If they hold a set or an invalidate,
    the response is unprepared, and every exception of an operation is
    caught in the handler (or none is raised), [save_session] is called
    exactly once.  If an exception of an operation leaves the handler,
    [save_session] is not called, also after a set, and the middleware
    raises that exception. *)
Theorem session_use_decides_save
    storage (request : Request) (s0 : SessionData.t) (catches : bool)
    (ops : list SessionData.op) (resp : Response) :
  SESSION_OBJECT conf <> SESSION_STORAGE conf ->
  request !! SESSION_OBJECT conf = Some (SlotSession s0) ->
  SessionData.is_changed s0 = false ->
  let m := middleware conf storage (scripted_handler conf catches ops resp) in
  let tr := Aio.observe m request in
  (forallb read_only ops = true -> count_saves tr = 0%nat)
  /\ (existsb always_writes ops = true ->
      prepared resp = false ->
      catches = true \/ fst (run_until_raise ops s0) = None ->
      count_saves tr = 1%nat)
  /\ (forall e,
        catches = false -> fst (run_until_raise ops s0) = Some e ->
        count_saves tr = 0%nat /\ fst (fst (m request [])) = Raise e).
Proof.
  intros Hne Hslot Hc0 m tr. subst tr m. unfold Aio.observe.
  pose proof (scripted_handler_outcome request s0 catches ops resp Hne Hslot)
    as Hh.
  assert (Hdone : (if catches then None else fst (run_until_raise ops s0))
                  = None ->
                  (if catches then SessionData.run ops s0
                   else snd (run_until_raise ops s0))
                  = SessionData.run ops s0).
  { destruct catches; [reflexivity|]. apply run_until_raise_completes. }
  split; [|split].
  - intros Hro.
    destruct (if catches then None else fst (run_until_raise ops s0))
      as [e|] eqn:Hout.
    + now rewrite (middleware_handler_raises conf storage _ request _ e Hh).
    + rewrite (Hdone eq_refl), (run_read_only ops s0 Hro) in Hh.
      destruct (prepared resp) eqn:Hp.
      * now rewrite (middleware_prepared conf storage _ request _ resp Hh Hp).
      * rewrite (middleware_unprepared conf storage _ request _ resp Hh Hp).
        simpl mm_get. rewrite lookup_insert_eq. simpl as_SessionData.
        cbv iota. now rewrite Hc0.
  - intros Hw Hp Hcaught.
    assert (Hout : (if catches then None else fst (run_until_raise ops s0))
                   = None).
    { destruct Hcaught as [-> | Hnone]; [reflexivity|].
      now destruct catches. }
    rewrite Hout, (Hdone Hout) in Hh.
    rewrite (middleware_unprepared conf storage _ request _ resp Hh Hp).
    simpl mm_get. rewrite lookup_insert_eq. simpl as_SessionData. cbv iota.
    rewrite (run_writes_changed ops s0 Hw).
    destruct (AbstractStorage.save_session _ _ _) as [[resp'|e] r2];
      reflexivity.
  - intros e -> He. rewrite He in Hh.
    rewrite (middleware_handler_raises conf storage _ request _ e Hh).
    split; reflexivity.
Qed.

End LazyWrite.

Lemma session_use_decides_save_witness :
  SESSION_OBJECT example_conf <> SESSION_STORAGE example_conf
  /\ example_request !! SESSION_OBJECT example_conf
     = Some (SlotSession example_session)
  /\ fst (run_until_raise
            [SessionData.Set_ "cart" (PInt 3); SessionData.Get "zip"]
            example_session) = Some (KeyError "zip")
  /\ count_saves
       (Aio.observe
          (@middleware example_conf Request Request_mapping
             (slot_backend example_conf) example_storage
             (scripted_handler example_conf false
                [SessionData.Set_ "cart" (PInt 3); SessionData.Get "zip"]
                example_response))
          example_request) = 0%nat
  /\ fst (fst (@middleware example_conf Request Request_mapping
                 (slot_backend example_conf) example_storage
                 (scripted_handler example_conf false
                    [SessionData.Set_ "cart" (PInt 3); SessionData.Get "zip"]
                    example_response)
                 example_request []))
     = Raise (KeyError "zip").
Proof.
  assert (Hne : SESSION_OBJECT example_conf <> SESSION_STORAGE example_conf)
    by discriminate.
  assert (Hslot : example_request !! SESSION_OBJECT example_conf
                  = Some (SlotSession example_session))
    by (vm_compute; reflexivity).
  split; [exact Hne|]. split; [exact Hslot|]. split; [reflexivity|].
  destruct (@session_use_decides_save example_conf
              (slot_backend example_conf) example_storage example_request
              example_session false
              [SessionData.Set_ "cart" (PInt 3); SessionData.Get "zip"]
              example_response Hne Hslot eq_refl)
    as (_ & _ & Hescapes).
  exact (Hescapes (KeyError "zip") eq_refl eq_refl).
Defined.

(** ** forgot: the remaining paths *)

Section ForgotPaths.
Context (conf : Conf) {R : Type} `{MutableMapping R}
        `{AbstractStorage.Backend R}.

(** What [forgot] has logged when it reaches the deletions. *)
Lemma forgot_reaches_cleanup self request r1 r2 s log :
  AbstractStorage.get_session request = (Ok s, r1) ->
  AbstractStorage.invalidate s r1 = (Ok tt, r2) ->
  AbstractStorage.forgot conf self request log =
  Aio.finally_return
    (Aio.try_except
       (Aio.request_delitem (SESSION_KEY conf) ;;
        Aio.request_delitem (SESSION_OBJECT conf))
       is_Exception (fun err => Aio.print err))
    true
    (mm_setitem "session" (SlotValue PNone) r2)
    (log ++ [EvGetSession] ++ [EvInvalidate s] ++ [EvSetItem "session"]).
Proof.
  intros Hg Hi.
  unfold AbstractStorage.forgot, Aio.bind at 1, Aio.await at 1,
    Aio.bind at 1, Aio.emit at 1.
  rewrite Hg.
  unfold Aio.bind at 1, Aio.await at 1, Aio.bind at 1, Aio.emit at 1.
  rewrite Hi.
  unfold Aio.bind at 1, Aio.request_setitem at 1, Aio.bind at 1,
    Aio.emit at 1.
  rewrite <- !app_assoc. reflexivity.
Qed.

(** X23: when [get_session] raises, [forgot] raises the same exception
    and does nothing else: nothing is invalidated, no slot of the
    request context is written or deleted. *)
Theorem forgot_get_session_fails self request r1 e log :
  AbstractStorage.get_session request = (Raise e, r1) ->
  AbstractStorage.forgot conf self request log
  = (Raise e, r1, log ++ [EvGetSession]).
Proof.
  intros Hg.
  unfold AbstractStorage.forgot, Aio.bind at 1, Aio.await at 1,
    Aio.bind at 1, Aio.emit at 1.
  now rewrite Hg.
Qed.

(** X24: when [invalidate] raises, [forgot] raises the same exception
    and leaves the slots of the request context in place: the
    ["session"] slot is not reset and nothing is deleted. *)
Theorem forgot_invalidate_fails self request r1 r2 s e log :
  AbstractStorage.get_session request = (Ok s, r1) ->
  AbstractStorage.invalidate s r1 = (Raise e, r2) ->
  AbstractStorage.forgot conf self request log
  = (Raise e, r2, log ++ [EvGetSession; EvInvalidate s]).
Proof.
  intros Hg Hi.
  unfold AbstractStorage.forgot, Aio.bind at 1, Aio.await at 1,
    Aio.bind at 1, Aio.emit at 1.
  rewrite Hg.
  unfold Aio.bind at 1, Aio.await at 1, Aio.bind at 1, Aio.emit at 1.
  rewrite Hi. rewrite <- app_assoc. reflexivity.
Qed.

(** X25: when the first deletion raises, the second is not attempted:
    [forgot] still returns [True], but the request context keeps all its
    slots (the session object too); the error is printed when it is an
    [Exception] and dropped silently otherwise. *)
Theorem forgot_first_deletion_fails self request r1 r2 s e :
  AbstractStorage.get_session request = (Ok s, r1) ->
  AbstractStorage.invalidate s r1 = (Ok tt, r2) ->
  mm_delitem (SESSION_KEY conf) (mm_setitem "session" (SlotValue PNone) r2)
    = Raise e ->
  let '(out, r3, tr) := AbstractStorage.forgot conf self request [] in
  out = Ok true
  /\ r3 = mm_setitem "session" (SlotValue PNone) r2
  /\ deleted_keys tr = [SESSION_KEY conf]
  /\ printed tr = (if is_Exception e then [e] else []).
Proof.
  intros Hg Hi Hd.
  rewrite (forgot_reaches_cleanup self request r1 r2 s [] Hg Hi).
  unfold Aio.finally_return, Aio.try_except, Aio.bind at 1,
    Aio.request_delitem at 1, Aio.bind at 1, Aio.emit at 1.
  rewrite Hd. destruct (is_Exception e); repeat split.
Qed.

(** X26: when the first deletion succeeds and the second raises,
    [forgot] returns [True] with the session-identity slot deleted and
    the error of the second deletion printed (when it is an
    [Exception]). *)
Theorem forgot_second_deletion_fails self request r1 r2 r3 s e :
  AbstractStorage.get_session request = (Ok s, r1) ->
  AbstractStorage.invalidate s r1 = (Ok tt, r2) ->
  mm_delitem (SESSION_KEY conf) (mm_setitem "session" (SlotValue PNone) r2)
    = Ok r3 ->
  mm_delitem (SESSION_OBJECT conf) r3 = Raise e ->
  let '(out, r4, tr) := AbstractStorage.forgot conf self request [] in
  out = Ok true
  /\ r4 = r3
  /\ deleted_keys tr = [SESSION_KEY conf; SESSION_OBJECT conf]
  /\ printed tr = (if is_Exception e then [e] else []).
Proof.
  intros Hg Hi Hd1 Hd2.
  rewrite (forgot_reaches_cleanup self request r1 r2 s [] Hg Hi).
  unfold Aio.finally_return, Aio.try_except, Aio.bind at 1,
    Aio.request_delitem at 1, Aio.bind at 1, Aio.emit at 1.
  rewrite Hd1.
  unfold Aio.request_delitem, Aio.bind, Aio.emit.
  rewrite Hd2. destruct (is_Exception e); repeat split.
Qed.

End ForgotPaths.

(** ** forgot on aiohttp's request *)

Lemma request_delitem_present (k : string) (r : Request) :
  is_Some (r !! k) -> mm_delitem k r = Ok (delete k r).
Proof. intros [x Hx]. simpl. now rewrite Hx. Qed.

Section ForgotOnRequest.
Context (conf : Conf) `{AbstractStorage.Backend Request}.

(** X27: on a request context that holds both the session identity and
    the session object (under different slot names), [forgot] returns
    [True], both slots are gone afterwards, nothing is printed, and the
    other slots are as after [request["session"] = None]. *)
Theorem forgot_clears_slots self (request r1 r2 : Request) s a b :
  AbstractStorage.get_session request = (Ok s, r1) ->
  AbstractStorage.invalidate s r1 = (Ok tt, r2) ->
  SESSION_KEY conf <> SESSION_OBJECT conf ->
  r2 !! SESSION_KEY conf = Some a ->
  r2 !! SESSION_OBJECT conf = Some b ->
  let '(out, r3, tr) := AbstractStorage.forgot conf self request [] in
  out = Ok true
  /\ r3 !! SESSION_KEY conf = None
  /\ r3 !! SESSION_OBJECT conf = None
  /\ printed tr = []
  /\ (forall k, k <> SESSION_KEY conf -> k <> SESSION_OBJECT conf ->
        r3 !! k = (<["session" := SlotValue PNone]> r2) !! k).
Proof.
  intros Hg Hi Hne Ha Hb.
  rewrite (forgot_reaches_cleanup conf self request r1 r2 s [] Hg Hi).
  set (r3 := mm_setitem "session" (SlotValue PNone) r2).
  assert (Hk : is_Some (r3 !! SESSION_KEY conf)).
  { subst r3. simpl. destruct (decide ("session" = SESSION_KEY conf)) as [<-|Hd].
    - rewrite lookup_insert_eq. eauto.
    - rewrite lookup_insert_ne by exact Hd. rewrite Ha. eauto. }
  assert (Ho : is_Some (delete (SESSION_KEY conf) r3 !! SESSION_OBJECT conf)).
  { rewrite lookup_delete_ne by exact Hne. subst r3. simpl.
    destruct (decide ("session" = SESSION_OBJECT conf)) as [<-|Hd].
    - rewrite lookup_insert_eq. eauto.
    - rewrite lookup_insert_ne by exact Hd. rewrite Hb. eauto. }
  unfold Aio.finally_return, Aio.try_except, Aio.bind at 1,
    Aio.request_delitem at 1, Aio.bind at 1, Aio.emit at 1.
  rewrite (request_delitem_present _ _ Hk).
  unfold Aio.request_delitem, Aio.bind, Aio.emit.
  rewrite (request_delitem_present _ _ Ho).
  split; [reflexivity|]. split.
  { rewrite lookup_delete_ne by congruence. apply lookup_delete_eq. }
  split; [apply lookup_delete_eq|]. split; [reflexivity|].
  intros k Hk1 Hk2. rewrite !lookup_delete_ne by congruence. reflexivity.
Qed.

(** X28: on a request context without a session-identity slot, [forgot]
    returns [True] and prints the [KeyError], but the session object
    stays attached to the request: its slot is never deleted. *)
Theorem forgot_leaves_session_object self (request r1 r2 : Request) s :
  AbstractStorage.get_session request = (Ok s, r1) ->
  AbstractStorage.invalidate s r1 = (Ok tt, r2) ->
  SESSION_KEY conf <> "session" ->
  r2 !! SESSION_KEY conf = None ->
  let '(out, r3, tr) := AbstractStorage.forgot conf self request [] in
  out = Ok true
  /\ printed tr = [KeyError (SESSION_KEY conf)]
  /\ deleted_keys tr = [SESSION_KEY conf]
  /\ (SESSION_OBJECT conf <> "session" ->
      r3 !! SESSION_OBJECT conf = r2 !! SESSION_OBJECT conf).
Proof.
  intros Hg Hi Hne Ha.
  rewrite (forgot_reaches_cleanup conf self request r1 r2 s [] Hg Hi).
  unfold Aio.finally_return, Aio.try_except, Aio.bind at 1,
    Aio.request_delitem at 1, Aio.bind at 1, Aio.emit at 1.
  simpl mm_delitem. simpl mm_setitem.
  rewrite lookup_insert_ne by congruence. rewrite Ha. simpl.
  repeat split. intros Ho. now rewrite lookup_insert_ne by congruence.
Qed.

End ForgotOnRequest.

(** ** The paths of forgot at concrete requests *)

Lemma forgot_get_session_fails_witness :
  @AbstractStorage.forgot example_conf Request Request_mapping
    (failing_backend true false) example_storage example_active_request []
  = (Raise (OtherError "backend down"), example_active_request, [EvGetSession]).
Proof.
  apply (@forgot_get_session_fails example_conf Request Request_mapping
           (failing_backend true false) example_storage
           example_active_request example_active_request
           (OtherError "backend down") [] eq_refl).
Defined.

Lemma forgot_invalidate_fails_witness :
  @AbstractStorage.forgot example_conf Request Request_mapping
    (failing_backend false true) example_storage example_active_request []
  = (Raise (OtherError "backend down"), example_active_request,
     [EvGetSession; EvInvalidate example_session]).
Proof.
  apply (@forgot_invalidate_fails example_conf Request Request_mapping
           (failing_backend false true) example_storage
           example_active_request example_active_request
           example_active_request example_session
           (OtherError "backend down") [] eq_refl eq_refl).
Defined.

Lemma forgot_first_deletion_fails_witness :
  printed
    (snd (@AbstractStorage.forgot example_conf LockedRequest
            LockedRequest_mapping (failing_backend false false)
            example_storage example_locked_request []))
  = [RuntimeError "slots are locked"].
Proof.
  pose proof (@forgot_first_deletion_fails example_conf LockedRequest
                LockedRequest_mapping (failing_backend false false)
                example_storage example_locked_request example_locked_request
                example_locked_request example_session
                (RuntimeError "slots are locked")
                eq_refl eq_refl eq_refl) as Hfirst.
  destruct (@AbstractStorage.forgot example_conf LockedRequest
              LockedRequest_mapping (failing_backend false false)
              example_storage example_locked_request [])
    as [[out r3] tr].
  exact (proj2 (proj2 (proj2 Hfirst))).
Defined.

Lemma forgot_second_deletion_fails_witness :
  printed
    (snd (@AbstractStorage.forgot example_conf Request Request_mapping
            (failing_backend false false) example_storage
            example_identity_request []))
  = [KeyError (SESSION_OBJECT example_conf)].
Proof.
  pose (r3 := delete (SESSION_KEY example_conf)
                (<["session" := SlotValue PNone]> example_identity_request)
              : Request).
  assert (Hd1 : mm_delitem (SESSION_KEY example_conf)
                  (mm_setitem "session" (SlotValue PNone)
                     example_identity_request) = Ok r3)
    by (vm_compute; reflexivity).
  assert (Hd2 : mm_delitem (SESSION_OBJECT example_conf) r3
                = Raise (KeyError (SESSION_OBJECT example_conf)))
    by (vm_compute; reflexivity).
  pose proof (@forgot_second_deletion_fails example_conf Request
                Request_mapping (failing_backend false false) example_storage
                example_identity_request example_identity_request
                example_identity_request r3 example_session
                (KeyError (SESSION_OBJECT example_conf))
                eq_refl eq_refl Hd1 Hd2) as Hsecond.
  destruct (@AbstractStorage.forgot example_conf Request Request_mapping
              (failing_backend false false) example_storage
              example_identity_request [])
    as [[out r4] tr].
  exact (proj2 (proj2 (proj2 Hsecond))).
Defined.

Lemma forgot_clears_slots_witness :
  (fst (fst (@AbstractStorage.forgot example_conf Request Request_mapping
               (failing_backend false false) example_storage
               example_active_request [])))
  = Ok true.
Proof.
  pose proof (@forgot_clears_slots example_conf (failing_backend false false)
                example_storage example_active_request example_active_request
                example_active_request example_session
                (SlotValue (PStr "abc")) (SlotSession example_session)
                eq_refl eq_refl ltac:(discriminate)
                ltac:(vm_compute; reflexivity) ltac:(vm_compute; reflexivity))
    as Hclear.
  destruct (@AbstractStorage.forgot example_conf Request Request_mapping
              (failing_backend false false) example_storage
              example_active_request [])
    as [[out r3] tr].
  exact (proj1 Hclear).
Defined.

Lemma forgot_leaves_session_object_witness :
  printed
    (snd (@AbstractStorage.forgot example_conf Request Request_mapping
            (failing_backend false false) example_storage example_request []))
  = [KeyError (SESSION_KEY example_conf)].
Proof.
  pose proof (@forgot_leaves_session_object example_conf
                (failing_backend false false) example_storage example_request
                example_request example_request example_session
                eq_refl eq_refl ltac:(discriminate)
                ltac:(vm_compute; reflexivity))
    as Hleft.
  destruct (@AbstractStorage.forgot example_conf Request Request_mapping
              (failing_backend false false) example_storage example_request [])
    as [[out r3] tr].
  exact (proj1 (proj2 Hleft)).
Defined.
